(** * JARVIS backend: the chat relay of [backend/server.js]

    A shallow embedding of the request path of the Express server: the
    per-client request counter, the validation of the inbound message, the
    priority-ordered loop over the configured providers, and the two provider
    adapters with their response parsing.

    Conventions.
    - A JavaScript string is a [string]; one character stands for one UTF-16
      code unit, so [String.length] is the [.length] of the source.
    - A JavaScript value is a [value]: the JSON values, plus [undefined].
      An object is the list of its own properties, keys distinct.
    - A JavaScript number is a [number]: a rational, an infinity or [NaN].
    - The world outside the file (the environment variables, the upstream
      HTTP endpoints, the clock, the two string/number conversions of the
      runtime) is a parameter of the definitions that depend on it. *)

From Stdlib Require Import QArith.
From Stdlib Require DecimalString.
From Stdlib Require Import Sorted.
From stdpp Require Import base option list strings gmap.

Local Open Scope string_scope.
Set Warnings "-register-all".

(** ** JavaScript values *)

Module JS.

Inductive number :=
  | NaN
  | Num (q : Q)
  | Infinity (negative : bool).

Inductive value :=
  | JUndefined
  | JNull
  | JBool (b : bool)
  | JNum (n : number)
  | JStr (s : string)
  | JArr (items : list value)
  | JObj (props : list (string * value)).

(** What the runtime throws.  [Error] is [new Error(msg)] of the source;
    [TypeError] is raised by the runtime (a property read of [null] or
    [undefined], a call of something that is not a function, a body read
    twice) and [Rejected] is a promise of the fetch API that rejects (the
    network call failed, the body is not JSON). *)
Inductive exn :=
  | Error (msg : string)
  | TypeError (msg : string)
  | Rejected (msg : string).

Definition result (A : Type) : Type := exn + A.

Definition ret {A} (a : A) : result A := inr a.
Definition throw {A} (e : exn) : result A := inl e.
Definition bind {A B} (m : result A) (k : A -> result B) : result B :=
  match m with
  | inl e => inl e
  | inr a => k a
  end.

Notation "x <- m ;; k" := (bind m (fun x => k))
  (at level 100, m at next level, right associativity).

(** [ToBoolean]. *)
Definition truthy (v : value) : bool :=
  match v with
  | JUndefined | JNull => false
  | JBool b => b
  | JNum NaN => false
  | JNum (Num q) => negb (Qeq_bool q 0)
  | JNum (Infinity _) => true
  | JStr s => negb (String.eqb s "")
  | JArr _ | JObj _ => true
  end.

(** [a || b] on values. *)
Definition or_else (a b : value) : value := if truthy a then a else b.

(** [a > b] on numbers: false as soon as one side is [NaN]. *)
Definition gt (a b : number) : bool :=
  match a, b with
  | NaN, _ | _, NaN => false
  | Num x, Num y => negb (Qle_bool x y)
  | Num _, Infinity neg => neg
  | Infinity neg, Num _ => negb neg
  | Infinity na, Infinity nb => negb na && nb
  end.

(** [a - b] on numbers. *)
Definition sub (a b : number) : number :=
  match a, b with
  | NaN, _ | _, NaN => NaN
  | Num x, Num y => Num (x - y)
  | Num _, Infinity neg => Infinity (negb neg)
  | Infinity neg, Num _ => Infinity neg
  | Infinity na, Infinity nb => if Bool.eqb na nb then NaN else Infinity na
  end.

Definition of_nat (n : nat) : number := Num (inject_Z (Z.of_nat n)).
Definition of_Z (z : Z) : number := Num (inject_Z z).

(** The canonical array index a property key denotes, if any: ["0"], ["1"],
    ["12"], but not ["01"] nor ["+1"]. *)
Definition array_index (k : string) : option nat :=
  match DecimalString.NilZero.uint_of_string k with
  | Some u =>
      let n := Nat.of_uint u in
      if String.eqb (DecimalString.NilZero.string_of_uint (Nat.to_uint n)) k
      then Some n else None
  | None => None
  end.

Fixpoint lookup_prop (k : string) (props : list (string * value)) : value :=
  match props with
  | [] => JUndefined
  | (k', v) :: rest => if String.eqb k' k then v else lookup_prop k rest
  end.

Fixpoint chars (s : string) : list string :=
  match s with
  | EmptyString => []
  | String c rest => String c EmptyString :: chars rest
  end.

(** [v.k] and [v[k]]: the own data properties.  Reading a property of
    [null] or [undefined] throws.  (Inherited methods are not modelled; the
    server reads the keys [choices], [message], [content], [generated_text],
    [error], [0] and [length] only.) *)
Definition get (v : value) (k : string) : result value :=
  match v with
  | JUndefined => throw (TypeError ("Cannot read properties of undefined (reading '" ++ k ++ "')"))
  | JNull => throw (TypeError ("Cannot read properties of null (reading '" ++ k ++ "')"))
  | JBool _ | JNum _ => ret JUndefined
  | JStr s =>
      if String.eqb k "length" then ret (JNum (of_nat (String.length s)))
      else match array_index k with
           | Some i => ret (default JUndefined (JStr <$> chars s !! i))
           | None => ret JUndefined
           end
  | JArr items =>
      if String.eqb k "length" then ret (JNum (of_nat (length items)))
      else match array_index k with
           | Some i => ret (default JUndefined (items !! i))
           | None => ret JUndefined
           end
  | JObj props => ret (lookup_prop k props)
  end.

(** [v?.k]. *)
Definition get_opt (v : value) (k : string) : value :=
  match get v k with
  | inl _ => JUndefined
  | inr x => x
  end.

Section Runtime.
(** [Number.prototype.toString] and the [StringToNumber] conversion. *)
Variable NumberToString : number -> string.
Variable StringToNumber : string -> number.

Definition join_sep (parts : list string) : string :=
  match parts with
  | [] => ""
  | p :: ps => fold_left (fun acc x => acc ++ "," ++ x) ps p
  end.

(** [ToString]; an array is joined with commas, [null] and [undefined]
    elements printing as the empty string. *)
Fixpoint ToString (v : value) : string :=
  match v with
  | JUndefined => "undefined"
  | JNull => "null"
  | JBool true => "true"
  | JBool false => "false"
  | JNum n => NumberToString n
  | JStr s => s
  | JArr items =>
      join_sep ((fix elems (l : list value) : list string :=
                   match l with
                   | [] => []
                   | JUndefined :: r | JNull :: r => "" :: elems r
                   | x :: r => ToString x :: elems r
                   end) items)
  | JObj _ => "[object Object]"
  end.

(** [ToNumber]. *)
Definition ToNumber (v : value) : number :=
  match v with
  | JUndefined => NaN
  | JNull => Num 0
  | JBool b => Num (if b then 1 else 0)
  | JNum n => n
  | JStr s => StringToNumber s
  | JArr _ | JObj _ => StringToNumber (ToString v)
  end.
End Runtime.

End JS.

(** ** The server *)

Module Server.
Import JS.

(** *** Provider configuration *)

Record provider := {
  name : string;
  url : string;
  key : option string;          (* [process.env.X]: a string, or undefined *)
  model : option string;
  type : string;
  priority : Z;
  maxTokens : option Z;
  description : string
}.

Record environment := {
  GROQ_API_KEY : option string;
  DEEPSEEK_API_KEY : option string;
  TOGETHER_API_KEY : option string;
  HUGGINGFACE_API_KEY : option string;
  FRONTEND_URL : option string
}.

Definition API_PROVIDERS (env : environment) : list provider := [
  {| name := "Groq-Ultra-Fast";
     url := "https://api.groq.com/openai/v1/chat/completions";
     key := GROQ_API_KEY env;
     model := Some "mixtral-8x7b-32768";
     type := "openai-compatible";
     priority := 1;
     maxTokens := Some 2000%Z;
     description := "Ultra-fast Mixtral responses" |};
  {| name := "DeepSeek-Intelligence";
     url := "https://api.deepseek.com/v1/chat/completions";
     key := DEEPSEEK_API_KEY env;
     model := Some "deepseek-chat";
     type := "openai-compatible";
     priority := 2;
     maxTokens := Some 2000%Z;
     description := "Advanced reasoning AI" |};
  {| name := "Together-AI-Llama";
     url := "https://api.together.xyz/v1/chat/completions";
     key := TOGETHER_API_KEY env;
     model := Some "meta-llama/Meta-Llama-3.1-8B-Instruct-Turbo";
     type := "openai-compatible";
     priority := 3;
     maxTokens := Some 2000%Z;
     description := "Latest Llama 3.1 model" |};
  {| name := "HuggingFace-Backup";
     url := "https://api-inference.huggingface.co/models/microsoft/DialoGPT-large";
     key := HUGGINGFACE_API_KEY env;
     model := None;
     type := "huggingface";
     priority := 4;
     maxTokens := None;
     description := "Reliable HuggingFace backup" |}
].

(** [p.key && p.key.length > 10] *)
Definition has_key (p : provider) : bool :=
  match key p with
  | Some k => negb (String.eqb k "") && (10 <? String.length k)%nat
  | None => false
  end.

(** [Array.prototype.sort] with the comparator [(a, b) => a.priority -
    b.priority].  The sort of the runtime is stable; it is modelled by
    insertion from the right, which places an element before the first one
    of strictly greater priority. *)
Fixpoint insert_by_priority (p : provider) (sorted : list provider) : list provider :=
  match sorted with
  | [] => [p]
  | q :: rest =>
      if (priority p <=? priority q)%Z then p :: q :: rest
      else q :: insert_by_priority p rest
  end.

Definition sort_by_priority (ps : list provider) : list provider :=
  foldr insert_by_priority [] ps.

(** [API_PROVIDERS.filter(...).sort(...)] *)
Definition sortedProviders (providers : list provider) : list provider :=
  sort_by_priority (List.filter has_key providers).

(** The order the sort establishes. *)
Definition by_priority (a b : provider) : Prop := (priority a <= priority b)%Z.

(** The providers of priority [k], in the order of the list. *)
Definition of_priority (k : Z) (ps : list provider) : list provider :=
  List.filter (fun p => (priority p =? k)%Z) ps.

(** Among the providers of a configuration that satisfy [P], the one of
    least priority number, and of those the one configured first. *)
Fixpoint preferred (P : provider -> bool) (ps : list provider) : option provider :=
  match ps with
  | [] => None
  | p :: rest =>
      if P p then
        match preferred P rest with
        | Some w => if (priority p <=? priority w)%Z then Some p else Some w
        | None => Some p
        end
      else preferred P rest
  end.

(** *** Requests sent upstream, and what comes back *)

Record fetch_request := {
  fetch_url : string;
  fetch_method : string;
  fetch_headers : list (string * string);
  fetch_body : value;           (* the argument of [JSON.stringify] *)
  fetch_timeout : Z
}.

(** A response of [fetch]: [text] is the raw body and [json] is what
    [JSON.parse] makes of it, [None] when it is not JSON.  A body is read
    once: [text_after_json] is what [response.text()] gives when
    [response.json()] has been called before it, which is the empty text
    for a response that has no body, and a rejection, worded by the runtime,
    for a body that has been consumed. *)
Record http_response := {
  ok : bool;
  status : Z;
  text : string;
  json : option value;
  text_after_json : result string
}.

(** What a request does to the world: the log line that announces an
    attempt, and the call of [fetch]. *)
Inductive effect :=
  | Trying (p : provider)
  | Fetch (r : fetch_request).

(** A computation that may call upstream and may throw. *)
Definition io (A : Type) : Type := list effect * result A.

Definition io_ret {A} (a : A) : io A := ([], inr a).
Definition io_throw {A} (e : exn) : io A := ([], inl e).
Definition io_lift {A} (r : result A) : io A := ([], r).
Definition io_bind {A B} (m : io A) (k : A -> io B) : io B :=
  match m with
  | (es, inl e) => (es, inl e)
  | (es, inr a) => let '(es', r) := k a in ((es ++ es')%list, r)
  end.
Definition io_emit (e : effect) : io unit := ([e], inr tt).

Notation "x <~ m ;; k" := (io_bind m (fun x => k))
  (at level 100, m at next level, right associativity).

(** *** The provider adapters *)

Definition systemPrompt : string :=
"You are JARVIS (Just A Rather Very Intelligent System), an advanced AI assistant with unlimited knowledge and capabilities.

Guidelines:
- Provide helpful, accurate, and detailed responses
- Be engaging, supportive, and intelligent
- Use clear formatting with **bold** and *italic* when helpful
- No topic restrictions - answer any question asked
- Include examples and real-world applications when relevant
- Be encouraging and positive in your responses

You can discuss any topic without limitations. Provide comprehensive, intelligent responses that demonstrate your advanced capabilities.".

Definition role_content (role : string) (content : value) : value :=
  JObj [("role", JStr role); ("content", content)].

(** [l.slice(-n)] on an array: the last [n] elements, all of them when
    there are fewer. *)
Definition slice_last {A} (n : nat) (l : list A) : list A :=
  drop (length l - n) l.

Definition string_slice_last (n : nat) (s : string) : string :=
  String.substring (String.length s - n) n s.

(** [...history.slice(-6)]: an array gives its last six elements, a string
    the characters of its last six; on anything else [slice] is not a
    function. *)
Definition spread_slice6 (history : value) : result (list value) :=
  match history with
  | JArr turns => ret (slice_last 6 turns)
  | JStr s => ret (JStr <$> chars (string_slice_last 6 s))
  | JUndefined | JNull => _ <- get history "slice" ;; ret []
  | JBool _ | JNum _ | JObj _ => throw (TypeError "history.slice is not a function")
  end.

(** The [messages] array of [callAIProvider]. *)
Definition build_messages (message : value) (history : value) : result (list value) :=
  context <- spread_slice6 history ;;
  ret (role_content "system" (JStr systemPrompt)
         :: context ++ [role_content "user" message])%list.

(** [s.includes(sub)] *)
Definition includes (s sub : string) : bool :=
  match String.index 0 sub s with
  | Some _ => true
  | None => false
  end.

(** A string-valued expression that may be undefined, inside a template
    literal. *)
Definition template_opt (s : option string) : string := default "undefined" s.

(** [a || b] where [a] is a string or undefined. *)
Definition or_string (a : option string) (b : string) : string :=
  match a with
  | Some s => if String.eqb s "" then b else s
  | None => b
  end.

Definition opt_value {A} (f : A -> value) (o : option A) : value :=
  match o with
  | Some a => f a
  | None => JUndefined
  end.

Definition seven_tenths : number := Num (7 # 10).
Definition eleven_tenths : number := Num (11 # 10).

Section Adapters.
Variable NumberToString : number -> string.
Variable StringToNumber : string -> number.
Variable env : environment.
(** The upstream endpoints. *)
Variable fetch : fetch_request -> result http_response.

Definition do_fetch (r : fetch_request) : io http_response :=
  (_ <~ io_emit (Fetch r) ;; io_lift (fetch r)).

(** [response.json()] *)
Definition response_json (response : http_response) : result value :=
  match json response with
  | Some data => ret data
  | None => throw (Rejected "invalid json response body")
  end.

Definition openai_headers (provider : provider) : list (string * string) :=
  List.app
    [("Content-Type", "application/json");
     ("Authorization", "Bearer " ++ template_opt (key provider));
     ("User-Agent", "JARVIS-AI/2.0")]
    (if includes (name provider) "OpenRouter"
     then [("HTTP-Referer", or_string (FRONTEND_URL env) "https://yourusername.github.io");
           ("X-Title", "JARVIS AI Educational Assistant")]
     else []).

Definition openai_body (provider : provider) (messages : list value) : value :=
  JObj [("model", opt_value JStr (model provider));
        ("messages", JArr messages);
        ("max_tokens",
          JNum (of_Z (match maxTokens provider with
                      | Some n => if (n =? 0)%Z then 2000%Z else n
                      | None => 2000%Z
                      end)));
        ("temperature", JNum seven_tenths);
        ("stream", JBool false)].

Definition openai_request (provider : provider) (messages : list value) : fetch_request :=
  {| fetch_url := url provider;
     fetch_method := "POST";
     fetch_headers := openai_headers provider;
     fetch_body := openai_body provider messages;
     fetch_timeout := 30000 |}.

(** The text of a failed chat-completion call.  The [catch] clause reads
    the body a second time, after [response.json()]; an empty text gives way
    to the status code. *)
Definition openai_error_text (response : http_response) : result string :=
  match (errorData <- response_json response ;;
         error <- get errorData "error" ;;
         ret (or_else (or_else (get_opt error "message")
                               (get_opt errorData "message"))
                      (JStr "Unknown error")))
  with
  | inr errorText => ret (ToString NumberToString errorText)
  | inl _ =>
      raw <- text_after_json response ;;
      ret (if String.eqb raw ""
           then "HTTP " ++ NumberToString (of_Z (status response))
           else raw)
  end.

Definition callOpenAICompatible (provider : provider) (messages : list value) : io value :=
  (response <~ do_fetch (openai_request provider messages) ;;
   if negb (ok response) then
     (errorText <~ io_lift (openai_error_text response) ;;
      io_throw (Error (name provider ++ " API error: " ++ errorText)))
   else
     io_lift
       (data <- response_json response ;;
        choices <- get data "choices" ;;
        if negb (truthy choices) then
          throw (Error ("Invalid response format from " ++ name provider))
        else
          first <- get choices "0" ;;
          if negb (truthy first) then
            throw (Error ("Invalid response format from " ++ name provider))
          else
            message <- get choices "message" ;;
            if negb (truthy message) then
              throw (Error ("Invalid response format from " ++ name provider))
            else get message "content")).

Definition huggingface_body (message : value) : value :=
  JObj [("inputs", message);
        ("parameters",
          JObj [("max_length", JNum (of_Z 500));
                ("temperature", JNum seven_tenths);
                ("do_sample", JBool true);
                ("return_full_text", JBool false);
                ("repetition_penalty", JNum eleven_tenths)])].

Definition huggingface_request (provider : provider) (message : value) : fetch_request :=
  {| fetch_url := url provider;
     fetch_method := "POST";
     fetch_headers :=
       [("Authorization", "Bearer " ++ template_opt (key provider));
        ("Content-Type", "application/json");
        ("User-Agent", "JARVIS-AI/2.0")];
     fetch_body := huggingface_body message;
     fetch_timeout := 30000 |}.

Definition isArray (v : value) : bool :=
  match v with
  | JArr _ => true
  | _ => false
  end.

(** The parsing of a successful generic-text response, as written: both
    branches read [generated_text] off [data] itself. *)
Definition huggingface_parse (data : value) : result value :=
  is_list <- (if isArray data then
                first <- get data "0" ;;
                if truthy first then
                  generated_text <- get data "generated_text" ;;
                  ret (truthy generated_text)
                else ret false
              else ret false) ;;
  if is_list : bool then get data "generated_text"
  else
    generated_text <- get data "generated_text" ;;
    if truthy generated_text then ret generated_text
    else
      error <- get data "error" ;;
      if truthy error then
        throw (Error ("HuggingFace error: " ++ ToString NumberToString error))
      else
        throw (Error "Invalid HuggingFace response format").

(** On a failed call the body is read as text; the read of a body that
    arrived does not fail, so the fallback ['Unknown error'] is not
    reached. *)
Definition callHuggingFace (provider : provider) (message : value) : io value :=
  (response <~ do_fetch (huggingface_request provider message) ;;
   if negb (ok response) then
     io_throw (Error ("HuggingFace API error: " ++ text response))
   else
     io_lift (data <- response_json response ;; huggingface_parse data)).

Definition callAIProvider (provider : provider) (message : value) (history : value)
  : io value :=
  (messages <~ io_lift (build_messages message history) ;;
   if String.eqb (type provider) "openai-compatible" then
     callOpenAICompatible provider messages
   else if String.eqb (type provider) "huggingface" then
     callHuggingFace provider message
   else
     io_throw (Error ("Unsupported provider type: " ++ type provider))).

End Adapters.

(** *** The chat endpoint *)

Record request := {
  method : string;
  path : string;
  ip : option string;
  remoteAddress : option string;   (* [req.connection.remoteAddress] *)
  body : value;                    (* what [express.json] left in [req.body] *)
  startTime : value
}.

Inductive reply_body :=
  | ErrorReply (error message : string)
  | UnavailableReply (error message : string) (providers_tried : list string)
  | ChatReply (response : value) (provider model timestamp : string)
              (processing_time_ms : number)
  | HealthReply (apis_configured apis_total : nat)
  | NotFound
  | NoContent.

Record http_reply := {
  reply_status : Z;
  reply_body_of : reply_body
}.

Definition res_json (code : Z) (b : reply_body) : http_reply :=
  {| reply_status := code; reply_body_of := b |}.

(** The client identity is a string, or undefined. *)
Definition client := option string.

(** What handling one request leaves behind. *)
Record outcome := {
  reply : http_reply;
  effects : list effect;
  counts_after : gmap client nat
}.

(** The providers a request tried, and the requests it sent upstream. *)
Definition attempted (es : list effect) : list provider :=
  omap (fun e => match e with Trying p => Some p | Fetch _ => None end) es.

Definition fetched (es : list effect) : list fetch_request :=
  omap (fun e => match e with Fetch r => Some r | Trying _ => None end) es.

(** A message the validation refuses: anything but a string (a missing
    message is [undefined]), the empty string, a string of more than
    10,000 characters. *)
Definition invalid_message (message : value) : Prop :=
  forall s, message = JStr s -> s = "" \/ (10000 < Z.of_nat (String.length s))%Z.

(** A message the validation lets through. *)
Definition valid_message (message : value) : Prop :=
  exists s, message = JStr s /\ s <> "" /\ (Z.of_nat (String.length s) <= 10000)%Z.

(** [req.ip || req.connection.remoteAddress] *)
Definition clientIP (req : request) : client :=
  match ip req with
  | Some a => if String.eqb a "" then remoteAddress req else Some a
  | None => remoteAddress req
  end.

(** A chat request of client [c]. *)
Definition chat_request_from (c : client) (req : request) : Prop :=
  method req = "POST" /\ path req = "/api/chat" /\ clientIP req = c.

(** [requestCounts.get(clientIP) || 0] *)
Definition count_of (requestCounts : gmap client nat) (c : client) : nat :=
  default 0%nat (requestCounts !! c).

(** The basic rate limiting at the head of the handler: [None] when the
    request is refused, the updated map otherwise. *)
Definition rate_limit (requestCounts : gmap client nat) (c : client)
  : option (gmap client nat) :=
  let count := count_of requestCounts c in
  if (60 <? count)%nat then None
  else Some (<[c := (count + 1)%nat]> requestCounts).

(** [setInterval(() => requestCounts.clear(), 60000)] *)
Definition clear_counts (requestCounts : gmap client nat) : gmap client nat := ∅.

Section Handler.
Variable NumberToString : number -> string.
Variable StringToNumber : string -> number.
Variable env : environment.
Variable fetch : fetch_request -> result http_response.
(** [Date.now()] and [new Date().toISOString()] when the reply is built. *)
Variable Date_now : Z.
Variable Date_iso : string.

(** [v.length > k], for a [v] that is neither null nor undefined. *)
Definition length_gt (v : value) (k : Z) : bool :=
  gt (ToNumber NumberToString StringToNumber (get_opt v "length")) (of_Z k).

(** [response && response.length > 10] *)
Definition acceptable (response : value) : bool :=
  truthy response && length_gt response 10.

Definition chat_reply (provider : provider) (response : value) (req : request)
  : http_reply :=
  res_json 200
    (ChatReply response (name provider) (or_string (model provider) "Unknown")
       Date_iso
       (sub (of_Z Date_now) (ToNumber NumberToString StringToNumber (startTime req)))).

(** The replies the chat endpoint can give to a request that was let in. *)
Inductive reply_shape (req : request) : http_reply -> Prop :=
  | shape_error (code : Z) (error hint : string) :
      code = 400%Z \/ code = 503%Z \/ code = 500%Z ->
      reply_shape req (res_json code (ErrorReply error hint))
  | shape_unavailable (error hint : string) (tried : list string) :
      reply_shape req (res_json 503 (UnavailableReply error hint tried))
  | shape_chat (w : provider) (response : value) :
      reply_shape req (chat_reply w response req).

(** The [for] loop over the sorted providers: the reply of the first
    acceptable response, or [None] when the list is exhausted.  A thrown
    error and a response that is not acceptable both fall through to the
    next provider. *)
Fixpoint try_providers (providers : list provider) (message history : value)
    (req : request) : list effect * option http_reply :=
  match providers with
  | [] => ([], None)
  | provider :: rest =>
      let '(es, r) :=
        (_ <~ io_emit (Trying provider) ;;
         callAIProvider NumberToString env fetch provider message
           (or_else history (JArr []))) in
      match r with
      | inr response =>
          if acceptable response then (es, Some (chat_reply provider response req))
          else let '(es', r') := try_providers rest message history req in
               ((es ++ es')%list, r')
      | inl _ =>
          let '(es', r') := try_providers rest message history req in
          ((es ++ es')%list, r')
      end
  end.

(** One turn of the loop, seen from outside: the call the loop makes for
    [provider], and whether the loop takes its response. *)
Definition attempt (message history : value) (provider : provider) : io value :=
  callAIProvider NumberToString env fetch provider message
    (or_else history (JArr [])).

Definition succeeds (message history : value) (provider : provider) : bool :=
  match snd (attempt message history provider) with
  | inr response => acceptable response
  | inl _ => false
  end.

(** The reply the loop gives when it stops at [provider]. *)
Definition answer (message history : value) (req : request) (provider : provider)
  : option http_reply :=
  match snd (attempt message history provider) with
  | inr response => Some (chat_reply provider response req)
  | inl _ => None
  end.

Definition is_string (v : value) : bool :=
  match v with
  | JStr _ => true
  | _ => false
  end.

(** The body of the outer [try]. *)
Definition process (API_PROVIDERS : list provider) (req : request)
  : list effect * result http_reply :=
  match (message <- get (body req) "message" ;;
         history <- get (body req) "history" ;;
         ret (message, history)) with
  | inl e => ([], inl e)
  | inr (message, history) =>
      if negb (truthy message) || negb (is_string message) then
        ([], inr (res_json 400
           (ErrorReply "Message is required"
                       "Please provide a valid message string")))
      else if length_gt message 10000 then
        ([], inr (res_json 400
           (ErrorReply "Message too long"
                       "Please keep messages under 10,000 characters")))
      else
        let sorted := sortedProviders API_PROVIDERS in
        if (length sorted =? 0)%nat then
          ([], inr (res_json 503
             (ErrorReply "No API providers configured"
                "Server configuration error - please contact administrator")))
        else
          match try_providers sorted message history req with
          | (es, Some r) => (es, inr r)
          | (es, None) =>
              (es, inr (res_json 503
                 (UnavailableReply "All AI providers are currently unavailable"
                    "Please try again in a moment. If the issue persists, contact support."
                    (name <$> sorted))))
          end
  end.

(** [app.post('/api/chat', ...)] *)
Definition chat (API_PROVIDERS : list provider) (requestCounts : gmap client nat)
    (req : request) : outcome :=
  match rate_limit requestCounts (clientIP req) with
  | None =>
      {| reply := res_json 429
           (ErrorReply "Rate limit exceeded" "Please wait before making more requests");
         effects := [];
         counts_after := requestCounts |}
  | Some counts =>
      match process API_PROVIDERS req with
      | (es, inr r) => {| reply := r; effects := es; counts_after := counts |}
      | (es, inl _) =>
          {| reply := res_json 500
               (ErrorReply "Internal server error"
                           "An unexpected error occurred. Please try again.");
             effects := es;
             counts_after := counts |}
      end
  end.

End Handler.

(** *** The application: the middleware stack, in registration order *)

Inductive layer :=
  | Use (middleware : request -> request)    (* runs, then calls [next()] *)
  | Route (verb route : string) (handler : gmap client nat -> request -> outcome)
  | UseError.                                (* runs on [next(err)] only *)

(** The letters A to Z in lower case, every other code unit as it is: the
    folding under which a route is compared with a path. *)
Definition fold_case_char (c : Ascii.ascii) : Ascii.ascii :=
  let n := Ascii.N_of_ascii c in
  if ((65 <=? n) && (n <=? 90))%N then Ascii.ascii_of_N (n + 32) else c.

Fixpoint fold_case (s : string) : string :=
  match s with
  | EmptyString => EmptyString
  | String c rest => String (fold_case_char c) (fold_case rest)
  end.

(** A route registered as a plain path matches that path whatever the case
    of its letters, with or without one slash at the end. *)
Definition route_matches (route pathname : string) : bool :=
  String.eqb (fold_case pathname) (fold_case route)
  || String.eqb (fold_case pathname) (fold_case route ++ "/").

(** A route registered for GET answers HEAD as well. *)
Definition method_matches (verb m : string) : bool :=
  String.eqb m verb || String.eqb verb "GET" && String.eqb m "HEAD".

(** A request walks the stack from the top.  A route that matches answers
    and does not call [next()]: the layers below it never see the request. *)
Fixpoint dispatch (stack : list layer) (requestCounts : gmap client nat)
    (req : request) : outcome :=
  match stack with
  | [] => {| reply := res_json 404 NotFound; effects := [];
             counts_after := requestCounts |}
  | Use middleware :: below => dispatch below requestCounts (middleware req)
  | Route verb route handler :: below =>
      if method_matches verb (method req) && route_matches route (path req)
      then handler requestCounts req
      else dispatch below requestCounts req
  | UseError :: below => dispatch below requestCounts req
  end.

(** What a request brings as its body, as the JSON parser finds it. *)
Inductive payload :=
  | Unread                (* no body, or a content type that is not JSON *)
  | Json (data : value)   (* a JSON text within the limit, parsed; the empty
                             body stands for the empty object *)
  | Unreadable.           (* not JSON, over 10mb, or in an encoding or a
                             character set the parser does not take *)

(** A request as it comes off the wire. *)
Record arrival := {
  verb : string;
  pathname : string;
  peer_ip : option string;
  peer_address : option string;
  sent : payload
}.

(** [req.ip || req.connection.remoteAddress] of the request it becomes. *)
Definition client_of (a : arrival) : client :=
  match peer_ip a with
  | Some x => if String.eqb x "" then peer_address a else Some x
  | None => peer_address a
  end.

Section App.
Variable NumberToString : number -> string.
Variable StringToNumber : string -> number.
Variable env : environment.
Variable fetch : fetch_request -> result http_response.
(** [Date.now()] as the start-time middleware reads it, then [Date.now()]
    and [toISOString()] as the handler reads them. *)
Variable Date_now_start : Z.
Variable Date_now : Z.
Variable Date_iso : string.

(** What [req.body] is when the parser has not read a body: the empty
    object for the parser of Express 4, undefined for that of Express 5. *)
Variable unread_body : value.

(** [cors]: a preflight request is answered on the spot with status 204;
    any other request is handed on (the headers it sets are not kept). *)
Definition cors (a : arrival) : option http_reply :=
  if String.eqb (verb a) "OPTIONS"
  then Some {| reply_status := 204; reply_body_of := NoContent |}
  else None.

(** [express.json({ limit: '10mb' })]: the value it puts in [req.body], or
    [None] when it calls [next(err)].  The parser is strict: a JSON text
    that is not an object or an array is an error. *)
Definition express_json (a : arrival) : option value :=
  match sent a with
  | Unread => Some unread_body
  | Json (JObj props) => Some (JObj props)
  | Json (JArr items) => Some (JArr items)
  | Json _ => None
  | Unreadable => None
  end.

Definition request_of (a : arrival) (parsed : value) : request :=
  {| method := verb a; path := pathname a; ip := peer_ip a;
     remoteAddress := peer_address a; body := parsed; startTime := JUndefined |}.

(** The error-handling middleware, where [next(err)] ends. *)
Definition error_handler : http_reply :=
  res_json 500 (ErrorReply "Server error" "An unexpected error occurred").

(** [GET /health], reduced to its two provider counts. *)
Definition health (requestCounts : gmap client nat) (req : request) : outcome :=
  {| reply := res_json 200
       (HealthReply (length (List.filter has_key (API_PROVIDERS env)))
                    (length (API_PROVIDERS env)));
     effects := [];
     counts_after := requestCounts |}.

(** [req.startTime = Date.now(); next()] *)
Definition track_start_time (req : request) : request :=
  {| method := method req; path := path req; ip := ip req;
     remoteAddress := remoteAddress req; body := body req;
     startTime := JNum (of_Z Date_now_start) |}.

(** The stack below [cors] and [express.json], as a request finds it once
    those two have let it through with its body parsed. *)
Definition app : list layer :=
  [ Route "GET" "/health" health;
    Route "POST" "/api/chat"
      (chat NumberToString StringToNumber env fetch Date_now Date_iso
            (API_PROVIDERS env));
    Use track_start_time;
    UseError ].

(** The whole stack, from the wire: [cors], then the JSON parser, then
    [app]; an error of the parser skips to the error handler. *)
Definition serve (requestCounts : gmap client nat) (a : arrival) : outcome :=
  match cors a with
  | Some preflight =>
      {| reply := preflight; effects := []; counts_after := requestCounts |}
  | None =>
      match express_json a with
      | Some parsed => dispatch app requestCounts (request_of a parsed)
      | None =>
          {| reply := error_handler; effects := []; counts_after := requestCounts |}
      end
  end.

(** The server between two events: a request arrives, or the one-minute
    timer fires.  The handler reads and writes the counter before its first
    [await] and never after, so for the counter each request is one step,
    however the upstream calls of several requests interleave. *)
Inductive event :=
  | Arrives (req : request)
  | Timer.

Definition step (requestCounts : gmap client nat) (ev : event)
  : gmap client nat * option outcome :=
  match ev with
  | Arrives req =>
      let o := dispatch app requestCounts req in
      (counts_after o, Some o)
  | Timer => (clear_counts requestCounts, None)
  end.

(** The replies to a sequence of events, oldest first. *)
Fixpoint run (requestCounts : gmap client nat) (evs : list event)
  : gmap client nat * list http_reply :=
  match evs with
  | [] => (requestCounts, [])
  | ev :: later =>
      let '(counts, o) := step requestCounts ev in
      let '(final, replies) := run counts later in
      (final, match o with
              | Some o => reply o :: replies
              | None => replies
              end)
  end.

(** The same from the wire: a request comes in, or the timer fires.  The
    counters after a sequence of these. *)
Inductive wire_event :=
  | Incoming (a : arrival)
  | Tick.

Fixpoint counts_after_all (requestCounts : gmap client nat) (evs : list wire_event)
  : gmap client nat :=
  match evs with
  | [] => requestCounts
  | Incoming a :: later => counts_after_all (counts_after (serve requestCounts a)) later
  | Tick :: later => counts_after_all (clear_counts requestCounts) later
  end.

(** A request that the chat handler counts for client [c]: not a
    preflight, let through by the parser, a POST that matches the chat
    route, and coming from [c]. *)
Definition is_counted_for (c : client) (a : arrival) : bool :=
  match cors a, express_json a with
  | None, Some parsed =>
      method_matches "POST" (verb a) && route_matches "/api/chat" (pathname a)
      && bool_decide (clientIP (request_of a parsed) = c)
  | _, _ => false
  end.

(** The requests that came in since the timer last fired, oldest first;
    [earlier] are those of the current window that precede [evs]. *)
Fixpoint arrivals_of_window (earlier : list arrival) (evs : list wire_event)
  : list arrival :=
  match evs with
  | [] => earlier
  | Tick :: later => arrivals_of_window [] later
  | Incoming a :: later => arrivals_of_window (earlier ++ [a])%list later
  end.

End App.

(** *** The start-up check of the keys *)

(** [toLowerCase] on one code unit below 256: the letters A to Z, and the
    capital letters of Latin-1 (all of U+00C0 to U+00DE but the
    multiplication sign). *)
Definition lower_char (c : Ascii.ascii) : Ascii.ascii :=
  let n := Ascii.N_of_ascii c in
  if ((65 <=? n) && (n <=? 90)
      || (192 <=? n) && (n <=? 222) && negb (n =? 215))%N
  then Ascii.ascii_of_N (n + 32)
  else c.

Fixpoint toLowerCase (s : string) : string :=
  match s with
  | EmptyString => EmptyString
  | String c rest => String (lower_char c) (toLowerCase rest)
  end.

Definition dash : Ascii.ascii := Ascii.ascii_of_nat 45.

(** [s.split('-')[0]]: what stands before the first dash, all of [s] when
    it has none. *)
Fixpoint before_dash (s : string) : string :=
  match s with
  | EmptyString => EmptyString
  | String c rest =>
      if Ascii.eqb c dash then EmptyString else String c (before_dash rest)
  end.

(** ['your_' + provider.name.toLowerCase().split('-')[0] + '_api_key_here'] *)
Definition placeholder_key (p : provider) : string :=
  "your_" ++ before_dash (toLowerCase (name p)) ++ "_api_key_here".

(** [!provider.key || provider.key === 'your_..._api_key_here'] *)
Definition key_missing (p : provider) : bool :=
  match key p with
  | None => true
  | Some k => String.eqb k "" || String.eqb k (placeholder_key p)
  end.

(** The names [validateAPIKeys] collects, in configuration order. *)
Definition missingKeys (providers : list provider) : list string :=
  name <$> List.filter key_missing providers.

(** [validateAPIKeys], without what it prints. *)
Definition validateAPIKeys (providers : list provider) : bool :=
  negb (0 <? length (missingKeys providers))%nat.

(** *** Reading a run *)

(** The elements of a list up to and including the first that satisfies
    [P]; the whole list when none does. *)
Fixpoint up_to_first {A} (P : A -> bool) (l : list A) : list A :=
  match l with
  | [] => []
  | x :: rest => if P x then [x] else x :: up_to_first P rest
  end.

(** The value of a header of an upstream request. *)
Fixpoint header (h : string) (headers : list (string * string)) : option string :=
  match headers with
  | [] => None
  | (h', v) :: rest => if String.eqb h' h then Some v else header h rest
  end.

End Server.

(** ** The front end: one exchange of [script.js] *)

Module Client.
Import JS Server.

(** What [JarvisAISystem] keeps between two exchanges, with the text of the
    message box. *)
Record state := {
  isProcessing : bool;
  conversationHistory : list value;
  messageInput : string
}.

(** What an exchange does to the page, as calls of the methods that touch
    it. *)
Inductive ui :=
  | FocusInput
  | ResetInputHeight
  | AddMessageToChat (content : string) (sender : string)
  | ShowTypingIndicator
  | HideTypingIndicator
  | UpdateSystemStatus (status info : string)
  | SpeakResponse (text : string)
  | FocusInputLater.

(** The request of [getAIResponse]. *)
Record chat_call := {
  call_url : string;
  call_method : string;
  call_headers : list (string * string);
  call_body : value               (* the argument of [JSON.stringify] *)
}.

(** The white space [trim] removes, among the code units below 256: tab,
    line feed, vertical tab, form feed, carriage return, space, no-break
    space. *)
Definition is_whitespace (c : Ascii.ascii) : bool :=
  let n := Ascii.N_of_ascii c in
  ((9 <=? n) && (n <=? 13) || (n =? 32) || (n =? 160))%N.

Fixpoint trim_start (s : string) : string :=
  match s with
  | EmptyString => EmptyString
  | String c rest => if is_whitespace c then trim_start rest else s
  end.

Fixpoint trim_end (s : string) : string :=
  match s with
  | EmptyString => EmptyString
  | String c rest =>
      match trim_end rest with
      | EmptyString => if is_whitespace c then EmptyString else String c EmptyString
      | kept => String c kept
      end
  end.

(** [s.trim()] *)
Definition trim (s : string) : string := trim_end (trim_start s).

(** A string of white space only (the empty string is one). *)
Fixpoint blank (s : string) : bool :=
  match s with
  | EmptyString => true
  | String c rest => is_whitespace c && blank rest
  end.

(** The [content] of a turn of the history. *)
Definition content_of (t : value) : value := get_opt t "content".

(** [{ role, content, timestamp: Date.now() }] *)
Definition turn (role : string) (content : value) (timestamp : Z) : value :=
  JObj [("role", JStr role); ("content", content); ("timestamp", JNum (of_Z timestamp))].

Definition fallback_text : string :=
  "I apologize, but I couldn't generate a response. Please try again.".

(** [error.message] *)
Definition message_of (e : exn) : string :=
  match e with
  | Error msg | TypeError msg | Rejected msg => msg
  end.

Section Exchange.
Variable NumberToString : number -> string.
(** [this.backendURL], and the backend behind it. *)
Variable backendURL : string.
Variable backend : chat_call -> result http_response.

Definition chat_call_of (message : string) (history : list value) : chat_call :=
  {| call_url := backendURL ++ "/api/chat";
     call_method := "POST";
     call_headers := [("Content-Type", "application/json")];
     call_body := JObj [("message", JStr message);
                        ("history", JArr (slice_last 6 history))] |}.

(** The [catch] clause of [getAIResponse]: a [TypeError] that mentions
    [fetch] becomes the cannot-connect error, anything else is thrown on. *)
Definition rethrown (e : exn) : exn :=
  match e with
  | TypeError msg =>
      if includes msg "fetch"
      then Error ("Cannot connect to backend server. Make sure it's running on "
                  ++ backendURL)
      else e
  | _ => e
  end.

(** [getAIResponse]: the request it sends, and the text and provider it
    returns or the error it throws. *)
Definition getAIResponse (message : string) (history : list value)
  : chat_call * result (value * value) :=
  let call := chat_call_of message history in
  (call,
   match
     (response <- backend call ;;
      if negb (ok response) then
        errorData <- ret (match json response with
                          | Some data => data
                          | None => JObj [("error", JStr "Unknown error")]
                          end) ;;
        error <- get errorData "error" ;;
        detail <- (if truthy error then ret error
                   else other <- get errorData "message" ;;
                        ret (or_else other (JStr "Unknown error"))) ;;
        throw (Error ("Backend response error: "
                      ++ NumberToString (of_Z (status response))
                      ++ " - " ++ ToString NumberToString detail))
      else
        data <- response_json response ;;
        text <- get data "response" ;;
        provider <- get data "provider" ;;
        ret (or_else text (JStr fallback_text), or_else provider (JStr "Unknown")))
   with
   | inl e => inl (rethrown e)
   | inr r => inr r
   end).

(** The message the [catch] clause of [processUserMessage] shows. *)
Definition error_message (e : exn) : string :=
  "I'm having trouble connecting to my AI servers. "
  ++ (if includes (message_of e) "backend server" then
        "Please make sure the backend server is running (npm start in backend folder)."
      else if includes (message_of e) "API" then
        "There might be an issue with the API keys. Please check the server console for details."
      else
        "Please check your internet connection and try again.").

Definition on_error (e : exn) : list ui :=
  [HideTypingIndicator;
   AddMessageToChat (error_message e) "ai";
   UpdateSystemStatus "Connection error" "Check backend server"].

(** [processUserMessage], from the click to the end of its [finally]:
    the state it leaves, what it did to the page, and the request it sent,
    if any.  [now_user] and [now_assistant] are the two readings of
    [Date.now()].  Showing a reply that is not a text throws (it has no
    [replace]), after the reply has been put in the history. *)
Definition processUserMessage (now_user now_assistant : Z) (st : state)
  : state * list ui * option chat_call :=
  if isProcessing st then (st, [], None)
  else
    let message := trim (messageInput st) in
    if String.eqb message "" then (st, [FocusInput], None)
    else
      let before :=
        [ResetInputHeight;
         AddMessageToChat message "user";
         ShowTypingIndicator;
         UpdateSystemStatus "Processing..." "Generating AI response"] in
      let pushed :=
        (conversationHistory st ++ [turn "user" (JStr message) now_user])%list in
      let history :=
        if (20 <? length pushed)%nat then slice_last 10 pushed else pushed in
      let '(call, r) := getAIResponse message history in
      let '(history', during) :=
        match r with
        | inr (text, provider) =>
            let history' :=
              (history ++ [turn "assistant" text now_assistant])%list in
            match text with
            | JStr shown =>
                (history',
                 ([HideTypingIndicator; AddMessageToChat shown "ai"]
                  ++ (if (String.length shown <? 500)%nat
                      then [SpeakResponse shown] else [])
                  ++ [UpdateSystemStatus "Response complete"
                        ("via " ++ ToString NumberToString provider)])%list)
            | _ =>
                (history',
                 (HideTypingIndicator
                  :: on_error (TypeError "content.replace is not a function"))%list)
            end
        | inl e => (history, on_error e)
        end in
      ({| isProcessing := false;
          conversationHistory := history';
          messageInput := "" |},
       (before ++ during ++ [FocusInputLater])%list,
       Some call).

End Exchange.

End Client.

(** ** Concrete worlds, for the examples below *)

Module Examples.
Import JS Server.

(** A runtime that prints and reads whole numbers; enough for the
    examples, which convert no other. *)
Definition NumberToString (n : number) : string :=
  match n with
  | NaN => "NaN"
  | Infinity false => "Infinity"
  | Infinity true => "-Infinity"
  | Num q => DecimalString.NilZero.string_of_int (Z.to_int (Qnum q))
  end.

Definition StringToNumber (s : string) : number :=
  match DecimalString.NilZero.int_of_string s with
  | Some i => of_Z (Z.of_int i)
  | None => NaN
  end.

(** An upstream world given by a table from URL to response; a URL that is
    not in the table is unreachable. *)
Fixpoint lookup_url (u : string) (table : list (string * http_response))
  : result http_response :=
  match table with
  | [] => throw (Rejected "network error")
  | (u', response) :: rest =>
      if String.eqb u' u then ret response else lookup_url u rest
  end.

Definition fetch_table (table : list (string * http_response))
  (r : fetch_request) : result http_response :=
  lookup_url (fetch_url r) table.

(** How the runtime fetch of Node words a second read of a body. *)
Definition body_is_unusable : result string :=
  throw (TypeError "Body is unusable: Body has already been read").

Definition ok_json (data : value) : http_response :=
  {| ok := true; status := 200; text := ""; json := Some data;
     text_after_json := body_is_unusable |}.

Definition service_unavailable : http_response :=
  {| ok := false; status := 503; text := "Service Unavailable"; json := None;
     text_after_json := body_is_unusable |}.

Definition post_chat (b : value) : request :=
  {| method := "POST"; path := "/api/chat"; ip := Some "203.0.113.7";
     remoteAddress := None; body := b; startTime := JUndefined |}.

(** A POST of the visitor on the wire. *)
Definition post_to (p : string) (b : payload) : arrival :=
  {| verb := "POST"; pathname := p; peer_ip := Some "203.0.113.7";
     peer_address := None; sent := b |}.

(** The same request on the wire, with no body at all. *)
Definition post_without_body : arrival :=
  {| verb := "POST"; pathname := "/api/chat"; peer_ip := Some "203.0.113.7";
     peer_address := None; sent := Unread |}.

Definition now_start : Z := 1700000000000.
Definition now : Z := 1700000000250.
Definition iso : string := "2023-11-14T22:13:20.250Z".

(** Two chat-completion providers with credentials: priority 1 answers
    503, priority 2 answers with one completion choice. *)
Definition env_two : environment :=
  {| GROQ_API_KEY := Some "gsk_0123456789abcdef";
     DEEPSEEK_API_KEY := Some "sk-0123456789abcdef";
     TOGETHER_API_KEY := None;
     HUGGINGFACE_API_KEY := None;
     FRONTEND_URL := None |}.

Definition hello_choices : list value :=
  [JObj [("message", JObj [("content", JStr "Hello there, how can I help?")])]].

Definition hello_body : value := JObj [("choices", JArr hello_choices)].

Definition fetch_two : fetch_request -> result http_response :=
  fetch_table
    [("https://api.groq.com/openai/v1/chat/completions", service_unavailable);
     ("https://api.deepseek.com/v1/chat/completions", ok_json hello_body)].

Definition deepseek : provider :=
  {| name := "DeepSeek-Intelligence";
     url := "https://api.deepseek.com/v1/chat/completions";
     key := Some "sk-0123456789abcdef";
     model := Some "deepseek-chat";
     type := "openai-compatible";
     priority := 2;
     maxTokens := Some 2000%Z;
     description := "Advanced reasoning AI" |}.

(** Only the generic-text provider has a credential; it answers with a
    bare object. *)
Definition env_backup : environment :=
  {| GROQ_API_KEY := None;
     DEEPSEEK_API_KEY := None;
     TOGETHER_API_KEY := None;
     HUGGINGFACE_API_KEY := Some "hf_0123456789abcdef";
     FRONTEND_URL := None |}.

Definition backup_text : string := "Hello from the backup model.".

Definition fetch_backup : fetch_request -> result http_response :=
  fetch_table
    [("https://api-inference.huggingface.co/models/microsoft/DialoGPT-large",
      ok_json (JObj [("generated_text", JStr backup_text)]))].

Definition huggingface : provider :=
  {| name := "HuggingFace-Backup";
     url := "https://api-inference.huggingface.co/models/microsoft/DialoGPT-large";
     key := Some "hf_0123456789abcdef";
     model := None;
     type := "huggingface";
     priority := 4;
     maxTokens := None;
     description := "Reliable HuggingFace backup" |}.

Definition list_body : value :=
  JArr [JObj [("generated_text", JStr backup_text)]].

Definition fetch_backup_list : fetch_request -> result http_response :=
  fetch_table
    [("https://api-inference.huggingface.co/models/microsoft/DialoGPT-large",
      ok_json list_body)].

(** A configuration of three generic-text providers, listed out of
    priority order, two of them of equal priority. *)
Definition text_provider (n : string) (k : option string) (prio : Z) : provider :=
  {| name := n;
     url := "https://models.example/" ++ n;
     key := k;
     model := None;
     type := "huggingface";
     priority := prio;
     maxTokens := None;
     description := "" |}.

Definition gamma : provider := text_provider "gamma" (Some "key-gamma-0123456789") 2.
Definition alpha : provider := text_provider "alpha" (Some "key-alpha-0123456789") 1.
Definition beta : provider := text_provider "beta" (Some "key-beta-0123456789") 1.
Definition delta : provider := text_provider "delta" (Some "short") 0.

Definition three_providers : list provider := [gamma; delta; alpha; beta].

Definition text_reply (s : string) : http_response :=
  ok_json (JObj [("generated_text", JStr s)]).

(** All three answer at length. *)
Definition fetch_all_answer : fetch_request -> result http_response :=
  fetch_table
    [("https://models.example/gamma", text_reply "gamma speaking, at your service");
     ("https://models.example/alpha", text_reply "alpha speaking, at your service");
     ("https://models.example/beta", text_reply "beta speaking, at your service")].

(** [alpha] answers with five characters. *)
Definition fetch_alpha_short : fetch_request -> result http_response :=
  fetch_table
    [("https://models.example/gamma", text_reply "gamma speaking, at your service");
     ("https://models.example/alpha", text_reply "12345");
     ("https://models.example/beta", text_reply "beta speaking, at your service")].

(** [alpha] answers with a list of eleven items where a text is
    expected. *)
Definition eleven_items : list value := replicate 11 (JStr "x").

Definition fetch_alpha_list : fetch_request -> result http_response :=
  fetch_table
    [("https://models.example/gamma", text_reply "gamma speaking, at your service");
     ("https://models.example/alpha",
      ok_json (JObj [("generated_text", JArr eleven_items)]))].

(** Nobody answers usefully: an error status, a short text, an error
    field. *)
Definition fetch_none_answer : fetch_request -> result http_response :=
  fetch_table
    [("https://models.example/gamma", service_unavailable);
     ("https://models.example/alpha", text_reply "12345");
     ("https://models.example/beta",
      ok_json (JObj [("error", JStr "Model is currently loading")]))].

Definition turn (role content : string) : value :=
  JObj [("role", JStr role); ("content", JStr content); ("timestamp", JNum (of_Z 0))].

Definition seven_turns : list value :=
  [turn "user" "one"; turn "assistant" "two"; turn "user" "three";
   turn "assistant" "four"; turn "user" "five"; turn "assistant" "six";
   turn "user" "seven"].

Definition hi : value := JObj [("message", JStr "Hi")].
Definition hi_with_history : value :=
  JObj [("message", JStr "Hi"); ("history", JArr seven_turns)].
Definition blank : value := JObj [("message", JStr "   ")].
Definition no_message : value := JObj [("history", JArr [])].

Definition visitor : client := Some "203.0.113.7".

(** No credential at all; the placeholder of the example file for one
    provider; credentials too short to count. *)
Definition env_none : environment :=
  {| GROQ_API_KEY := None; DEEPSEEK_API_KEY := None; TOGETHER_API_KEY := None;
     HUGGINGFACE_API_KEY := None; FRONTEND_URL := None |}.

Definition env_placeholder : environment :=
  {| GROQ_API_KEY := Some "your_groq_api_key_here"; DEEPSEEK_API_KEY := None;
     TOGETHER_API_KEY := None; HUGGINGFACE_API_KEY := None; FRONTEND_URL := None |}.

Definition env_short : environment :=
  {| GROQ_API_KEY := Some "gsk"; DEEPSEEK_API_KEY := Some "sk-1";
     TOGETHER_API_KEY := Some "tgt"; HUGGINGFACE_API_KEY := Some "hf_0123456";
     FRONTEND_URL := None |}.

Definition groq (k : option string) : provider :=
  {| name := "Groq-Ultra-Fast";
     url := "https://api.groq.com/openai/v1/chat/completions";
     key := k;
     model := Some "mixtral-8x7b-32768";
     type := "openai-compatible";
     priority := 1;
     maxTokens := Some 2000%Z;
     description := "Ultra-fast Mixtral responses" |}.

(** Upstream errors: a JSON error body, and a body that is not JSON. *)
Definition boom_props : list (string * value) :=
  [("error", JObj [("message", JStr "boom")])].

Definition boom_response : http_response :=
  {| ok := false; status := 500; text := "{...}"; json := Some (JObj boom_props);
     text_after_json := body_is_unusable |}.

Definition fetch_boom : fetch_request -> result http_response :=
  fetch_table
    [("https://api.groq.com/openai/v1/chat/completions",
      boom_response)].

Definition bad_gateway_response : http_response :=
  {| ok := false; status := 502; text := "<html>Bad Gateway</html>"; json := None;
     text_after_json := body_is_unusable |}.

(** A response without a body: reading it as JSON fails, reading it again
    as text gives the empty text. *)
Definition not_modified_response : http_response :=
  {| ok := false; status := 304; text := ""; json := None;
     text_after_json := ret "" |}.

Definition fetch_not_modified : fetch_request -> result http_response :=
  fetch_table
    [("https://api.groq.com/openai/v1/chat/completions", not_modified_response)].

Definition fetch_bad_gateway : fetch_request -> result http_response :=
  fetch_table
    [("https://api.groq.com/openai/v1/chat/completions",
      bad_gateway_response)].

(** A success body whose [choices] is an object. *)
Definition object_choices : list (string * value) :=
  [("0", JBool true);
   ("message", JObj [("content", JStr "An answer of some length.")])].

Definition fetch_object_choices : fetch_request -> result http_response :=
  fetch_table
    [("https://api.deepseek.com/v1/chat/completions",
      ok_json (JObj [("choices", JObj object_choices)]))].

(** A provider of a type the server has no adapter for. *)
Definition stranger : provider :=
  {| name := "stranger";
     url := "https://models.example/stranger";
     key := Some "key-stranger-0123456789";
     model := None;
     type := "anthropic";
     priority := 1;
     maxTokens := None;
     description := "" |}.

Definition hi_with_number_history : value :=
  JObj [("message", JStr "Hi"); ("history", JNum (of_Z 5))].



Definition health_check : request :=
  {| method := "GET"; path := "/health"; ip := Some "203.0.113.7";
     remoteAddress := None; body := JObj []; startTime := JUndefined |}.

(** The front end: an idle page with a message typed between blanks, a
    page with a full history, and a backend that answers. *)
Definition typed : Client.state :=
  {| Client.isProcessing := false;
     Client.conversationHistory := [];
     Client.messageInput := "  Hi  " |}.

Definition long_session : Client.state :=
  {| Client.isProcessing := false;
     Client.conversationHistory :=
       replicate 21 (Client.turn "user" (JStr "again") 1699999990000);
     Client.messageInput := "Hi" |}.

Definition backend_url : string := "http://localhost:3000".

Definition backend_answers (r : Client.chat_call) : result http_response :=
  ret (ok_json (JObj [("response", JStr backup_text);
                      ("provider", JStr "HuggingFace-Backup")])).

Fixpoint repeat_string (n : nat) (s : string) : string :=
  match n with
  | O => ""
  | S n' => s ++ repeat_string n' s
  end.

Definition long_text : string := repeat_string (N.to_nat 10001) "a".

Definition typed_long : Client.state :=
  {| Client.isProcessing := false;
     Client.conversationHistory := [];
     Client.messageInput := long_text |}.

Definition long_call : Client.chat_call :=
  Client.chat_call_of backend_url long_text
    [Client.turn "user" (JStr long_text) now_start].

Definition typed_call : Client.chat_call :=
  Client.chat_call_of backend_url "Hi" [Client.turn "user" (JStr "Hi") now_start].

End Examples.

(** * Properties *)

Import JS Server.

(** ** The runtime *)

Lemma gt_of_nat_of_Z (n : nat) (k : Z) :
  gt (of_nat n) (of_Z k) = (k <? Z.of_nat n)%Z.
Proof.
  unfold gt, of_nat, of_Z, Qle_bool, inject_Z; simpl.
  rewrite !Z.mul_1_r.
  destruct (Z.leb_spec (Z.of_nat n) k), (Z.ltb_spec k (Z.of_nat n)); simpl; lia.
Qed.

Lemma truthy_string (s : string) : truthy (JStr s) = true <-> s <> "".
Proof.
  simpl. destruct (String.eqb_spec s "") as [->|Hne]; simpl; split; congruence.
Qed.

Lemma get_defined (v : value) (k k' : string) (x : value) :
  get v k = inr x -> exists y, get v k' = inr y.
Proof.
  destruct v; simpl; try discriminate; intros _; eauto.
  - destruct (String.eqb k' "length"); eauto. destruct (array_index k'); eauto.
  - destruct (String.eqb k' "length"); eauto. destruct (array_index k'); eauto.
Qed.

Lemma get_array_name (items : list value) (k : string) :
  String.eqb k "length" = false -> array_index k = None ->
  get (JArr items) k = inr JUndefined.
Proof. intros H1 H2. simpl. by rewrite H1, H2. Qed.

(** ** The provider list *)

Lemma has_key_spec (p : provider) :
  has_key p = true <-> exists k, key p = Some k /\ (10 < String.length k)%nat.
Proof.
  unfold has_key. destruct (key p) as [k|]; split.
  - intros [_ H]%andb_prop. exists k. split; [done|]. by apply Nat.ltb_lt.
  - intros (k' & [= <-] & H). apply andb_true_intro. split.
    + destruct k; [simpl in H; lia | done].
    + by apply Nat.ltb_lt.
  - discriminate.
  - intros (k & [=] & _).
Qed.

Lemma elem_of_insert_by_priority (p q : provider) (sorted : list provider) :
  q ∈ insert_by_priority p sorted <-> q = p \/ q ∈ sorted.
Proof.
  induction sorted as [|r rest IH]; simpl.
  - rewrite list_elem_of_singleton, elem_of_nil. tauto.
  - destruct (priority p <=? priority r)%Z.
    + by rewrite elem_of_cons.
    + rewrite !elem_of_cons, IH. tauto.
Qed.

Lemma elem_of_sort_by_priority (q : provider) (ps : list provider) :
  q ∈ sort_by_priority ps <-> q ∈ ps.
Proof.
  induction ps as [|p ps IH]; simpl; [done|].
  rewrite elem_of_insert_by_priority, elem_of_cons, IH. tauto.
Qed.

Lemma elem_of_sortedProviders (q : provider) (providers : list provider) :
  q ∈ sortedProviders providers <-> q ∈ providers /\ has_key q = true.
Proof.
  unfold sortedProviders.
  rewrite elem_of_sort_by_priority, !list_elem_of_In, filter_In. tauto.
Qed.

Lemma insert_by_priority_sorted (p : provider) (sorted : list provider) :
  StronglySorted by_priority sorted ->
  StronglySorted by_priority (insert_by_priority p sorted).
Proof.
  induction 1 as [|q rest Hrest IH Hq]; simpl.
  - repeat constructor.
  - destruct (Z.leb_spec (priority p) (priority q)) as [Hle|Hlt].
    + constructor; [by constructor|].
      constructor; [done|].
      eapply Forall_impl; [exact Hq|]. unfold by_priority. intros; lia.
    + constructor; [done|].
      apply Forall_forall. intros r [->|Hr]%elem_of_insert_by_priority.
      * unfold by_priority. lia.
      * by eapply Forall_forall in Hq.
Qed.

Lemma sort_by_priority_sorted (ps : list provider) :
  StronglySorted by_priority (sort_by_priority ps).
Proof.
  induction ps; simpl; [constructor | by apply insert_by_priority_sorted].
Qed.

(** The sort is stable: providers of one priority keep their order. *)
Lemma of_priority_insert (k : Z) (p : provider) (sorted : list provider) :
  of_priority k (insert_by_priority p sorted) = of_priority k (p :: sorted).
Proof.
  unfold of_priority.
  induction sorted as [|q rest IH]; simpl; [done|].
  destruct (Z.leb_spec (priority p) (priority q)) as [Hle|Hlt]; simpl; [done|].
  rewrite IH. simpl.
  destruct (Z.eqb_spec (priority p) k), (Z.eqb_spec (priority q) k); try done; lia.
Qed.

Lemma sort_by_priority_stable (k : Z) (ps : list provider) :
  of_priority k (sort_by_priority ps) = of_priority k ps.
Proof.
  induction ps as [|p ps IH]; simpl; [done|].
  rewrite of_priority_insert. unfold of_priority in *. simpl. by rewrite IH.
Qed.

(** The first provider of the sorted list that satisfies [P] is the
    preferred one of the configuration. *)
Lemma find_insert_by_priority (P : provider -> bool) (p : provider)
    (sorted : list provider) :
  StronglySorted by_priority sorted ->
  List.find P (insert_by_priority p sorted) =
    if P p then
      match List.find P sorted with
      | Some w => if (priority p <=? priority w)%Z then Some p else Some w
      | None => Some p
      end
    else List.find P sorted.
Proof.
  induction 1 as [|q rest Hrest IH Hq]; simpl.
  - by destruct (P p).
  - destruct (Z.leb_spec (priority p) (priority q)) as [Hle|Hlt]; simpl.
    + destruct (P p); [|done].
      destruct (P q) eqn:HPq.
      * by destruct (Z.leb_spec (priority p) (priority q)); [|lia].
      * destruct (List.find P rest) as [w|] eqn:Hw; [|done].
        apply find_some in Hw as [Hw _].
        apply list_elem_of_In in Hw. eapply Forall_forall in Hq; [|exact Hw].
        unfold by_priority in Hq.
        by destruct (Z.leb_spec (priority p) (priority w)); [|lia].
    + destruct (P q) eqn:HPq.
      * destruct (P p); [|done].
        by destruct (Z.leb_spec (priority p) (priority q)); [lia|].
      * exact IH.
Qed.

Lemma find_sortedProviders (P : provider -> bool) (providers : list provider) :
  List.find P (sortedProviders providers) =
    preferred (fun p => has_key p && P p) providers.
Proof.
  unfold sortedProviders.
  induction providers as [|p ps IH]; simpl; [done|].
  destruct (has_key p); simpl; [|exact IH].
  rewrite find_insert_by_priority by apply sort_by_priority_sorted.
  by rewrite IH.
Qed.

Lemma preferred_spec (P : provider -> bool) (ps : list provider) (w : provider) :
  preferred P ps = Some w ->
  exists before after,
    ps = (before ++ w :: after)%list /\ P w = true /\
    (forall q, q ∈ before -> P q = true -> (priority w < priority q)%Z) /\
    (forall q, q ∈ after -> P q = true -> (priority w <= priority q)%Z).
Proof.
  revert w. induction ps as [|p ps IH]; simpl; intros w; [done|].
  destruct (P p) eqn:HPp.
  - destruct (preferred P ps) as [w'|] eqn:Hw'.
    + destruct (IH w' eq_refl) as (before & after & -> & HPw' & Hb & Ha).
      destruct (Z.leb_spec (priority p) (priority w')) as [Hle|Hlt]; intros [= <-].
      * exists [], (before ++ w' :: after)%list. repeat split; [done|set_solver|].
        intros q [Hq|[->|Hq]%elem_of_cons]%elem_of_app HPq.
        -- specialize (Hb q Hq HPq). lia.
        -- done.
        -- specialize (Ha q Hq HPq). lia.
      * exists (p :: before), after. repeat split; [done| |done].
        intros q [->|Hq]%elem_of_cons HPq; [done|]. by apply Hb.
    + intros [= <-]. exists [], ps. repeat split; [done|set_solver|].
      intros q Hq HPq. exfalso. clear IH.
      induction ps as [|r ps IH]; [set_solver|]. simpl in Hw'.
      destruct (P r) eqn:HPr.
      * destruct (preferred P ps); [destruct (_ <=? _)%Z|]; discriminate.
      * apply elem_of_cons in Hq as [->|Hq]; [congruence|]. by apply IH.
  - intros Hw. destruct (IH w Hw) as (before & after & -> & HPw & Hb & Ha).
    exists (p :: before), after. repeat split; [done| |done].
    intros q [->|Hq]%elem_of_cons HPq; [congruence|]. by apply Hb.
Qed.

Lemma preferred_is_Some (P : provider -> bool) (ps : list provider) (p : provider) :
  p ∈ ps -> P p = true -> is_Some (preferred P ps).
Proof.
  induction ps as [|q ps IH]; [set_solver|]. simpl.
  intros [->|Hp]%elem_of_cons HPp.
  - rewrite HPp. destruct (preferred P ps); [destruct (_ <=? _)%Z|]; eauto.
  - destruct (IH Hp HPp) as [w ->].
    destruct (P q); [destruct (_ <=? _)%Z|]; eauto.
Qed.

(** ** The loop over the providers *)

Section Facts.
Context (NumberToString : number -> string) (StringToNumber : string -> number).
Context (env : environment) (fetch : fetch_request -> result http_response).
Context (Date_now_start Date_now : Z) (Date_iso : string).

Local Abbreviation acceptable := (acceptable NumberToString StringToNumber).
Local Abbreviation callAIProvider := (callAIProvider NumberToString env fetch).
Local Abbreviation attempt := (attempt NumberToString env fetch).
Local Abbreviation succeeds := (succeeds NumberToString StringToNumber env fetch).
Local Abbreviation chat_reply := (chat_reply NumberToString StringToNumber Date_now Date_iso).
Local Abbreviation answer :=
  (answer NumberToString StringToNumber env fetch Date_now Date_iso).
Local Abbreviation try_providers :=
  (try_providers NumberToString StringToNumber env fetch Date_now Date_iso).
Local Abbreviation process :=
  (process NumberToString StringToNumber env fetch Date_now Date_iso).
Local Abbreviation chat := (chat NumberToString StringToNumber env fetch Date_now Date_iso).
Local Abbreviation reply_shape :=
  (reply_shape NumberToString StringToNumber Date_now Date_iso).
Local Abbreviation app :=
  (app NumberToString StringToNumber env fetch Date_now_start Date_now Date_iso).
Local Abbreviation run :=
  (run NumberToString StringToNumber env fetch Date_now_start Date_now Date_iso).

Lemma length_gt_string (s : string) (k : Z) :
  length_gt NumberToString StringToNumber (JStr s) k
  = (k <? Z.of_nat (String.length s))%Z.
Proof. unfold length_gt. simpl. apply gt_of_nat_of_Z. Qed.

Lemma acceptable_string (s : string) :
  acceptable (JStr s) = (10 <? Z.of_nat (String.length s))%Z.
Proof.
  unfold Server.acceptable. rewrite length_gt_string.
  destruct s; [done|]. simpl truthy. by rewrite andb_true_l.
Qed.

Lemma try_providers_cons (p : provider) (rest : list provider)
    (message history : value) (req : request) :
  try_providers (p :: rest) message history req =
    if succeeds message history p then
      (Trying p :: fst (attempt message history p), answer message history req p)
    else
      ((Trying p :: fst (attempt message history p)
          ++ fst (try_providers rest message history req))%list,
       snd (try_providers rest message history req)).
Proof.
  unfold Server.succeeds, Server.answer. simpl.
  unfold Server.attempt.
  destruct (callAIProvider p message (or_else history (JArr []))) as [es [e|v]];
    simpl.
  - by destruct (try_providers rest message history req).
  - destruct (acceptable v); [done|].
    by destruct (try_providers rest message history req).
Qed.

Lemma try_providers_find (ps : list provider) (message history : value)
    (req : request) :
  snd (try_providers ps message history req) =
    List.find (succeeds message history) ps ≫= answer message history req.
Proof.
  induction ps as [|p ps IH]; [done|].
  rewrite try_providers_cons. cbn [List.find].
  by destruct (succeeds message history p).
Qed.

(** An adapter call sends at most one request, and which one is settled
    before anything comes back. *)
Lemma callAIProvider_effects (p : provider) (message history : value) :
  fst (callAIProvider p message history) =
    match build_messages message history with
    | inl _ => []
    | inr messages =>
        if String.eqb (type p) "openai-compatible"
        then [Fetch (openai_request env p messages)]
        else if String.eqb (type p) "huggingface"
             then [Fetch (huggingface_request p message)]
             else []
    end.
Proof.
  unfold Server.callAIProvider.
  destruct (build_messages message history) as [e|messages]; [done|].
  cbn [io_lift io_bind].
  destruct (String.eqb (type p) "openai-compatible").
  - unfold callOpenAICompatible, do_fetch, io_emit, io_lift. cbn [io_bind].
    destruct (fetch _) as [e|response]; [done|]. cbn [io_bind app].
    destruct (ok response); cbn [negb].
    + by destruct (_ <- response_json response ;; _).
    + by destruct (openai_error_text NumberToString response).
  - destruct (String.eqb (type p) "huggingface"); [|done].
    unfold callHuggingFace, do_fetch, io_emit, io_lift. cbn [io_bind].
    destruct (fetch _) as [e|response]; [done|]. cbn [io_bind app].
    destruct (ok response); cbn [negb]; [|done].
    by destruct (_ <- response_json response ;; _).
Qed.

Lemma attempted_attempt (p : provider) (message history : value) :
  attempted (fst (attempt message history p)) = [].
Proof.
  unfold Server.attempt. rewrite callAIProvider_effects.
  destruct (build_messages _ _); [done|].
  by repeat destruct (String.eqb _ _).
Qed.

Lemma attempted_app (es es' : list effect) :
  attempted (es ++ es') = (attempted es ++ attempted es')%list.
Proof. apply omap_app. Qed.

(** When no provider succeeds the loop goes through the whole list. *)
Lemma try_providers_exhausts (ps : list provider) (message history : value)
    (req : request) :
  List.find (succeeds message history) ps = None ->
  attempted (fst (try_providers ps message history req)) = ps.
Proof.
  induction ps as [|p ps IH]; [done|].
  rewrite try_providers_cons. cbn [List.find].
  destruct (succeeds message history p); [done|]. intros Hnone.
  cbn [fst]. change (Trying p :: ?l) with ([Trying p] ++ l)%list.
  rewrite !attempted_app, attempted_attempt, IH by done. done.
Qed.

Lemma fetched_app (es es' : list effect) :
  fetched (es ++ es') = (fetched es ++ fetched es')%list.
Proof. apply omap_app. Qed.

Lemma attempt_sends_at_most_once (p : provider) (message history : value) :
  (length (fetched (fst (attempt message history p))) <= 1)%nat.
Proof.
  unfold Server.attempt. rewrite callAIProvider_effects.
  destruct (build_messages _ _); [cbn; lia|].
  repeat destruct (String.eqb _ _); cbn; lia.
Qed.

Lemma try_providers_attempted (ps : list provider) (message history : value)
    (req : request) :
  attempted (fst (try_providers ps message history req))
    = up_to_first (succeeds message history) ps /\
  (length (fetched (fst (try_providers ps message history req)))
   <= length (attempted (fst (try_providers ps message history req))))%nat.
Proof.
  induction ps as [|p ps [IHa IHf]]; [by cbn|].
  rewrite try_providers_cons. cbn [up_to_first].
  pose proof (attempt_sends_at_most_once p message history) as Hone.
  pose proof (attempted_attempt p message history) as Hnone.
  destruct (succeeds message history p); cbn [fst].
  - change (attempted (Trying p :: ?l)) with (p :: attempted l).
    change (fetched (Trying p :: ?l)) with (fetched l).
    rewrite Hnone. split; [done|]. cbn [length]. lia.
  - change (attempted (Trying p :: ?l)) with (p :: attempted l).
    change (fetched (Trying p :: ?l)) with (fetched l).
    rewrite attempted_app, fetched_app, Hnone, length_app. cbn [app length].
    split; [by rewrite IHa|]. rewrite app_nil_l. lia.
Qed.


(** A response that is a list passes the loop's test by its number of
    items. *)
Lemma acceptable_list (items : list value) :
  acceptable (JArr items) = (10 <? Z.of_nat (length items))%Z.
Proof. unfold Server.acceptable, Server.length_gt. simpl. apply gt_of_nat_of_Z. Qed.

Lemma succeeds_answer (message history : value) (req : request) (w : provider) :
  succeeds message history w = true ->
  exists response,
    snd (attempt message history w) = inr response /\
    acceptable response = true /\
    answer message history req w = Some (chat_reply w response req).
Proof.
  unfold Server.succeeds, Server.answer.
  destruct (snd (attempt message history w)) as [e|response]; [done|]. eauto.
Qed.

(** ** Admission *)

Lemma rate_limit_admits (requestCounts : gmap client nat) (c : client) :
  (count_of requestCounts c <= 60)%nat ->
  rate_limit requestCounts c
  = Some (<[c := (count_of requestCounts c + 1)%nat]> requestCounts).
Proof.
  intros H. unfold rate_limit.
  by destruct (Nat.ltb_spec 60 (count_of requestCounts c)); [lia|].
Qed.

Lemma rate_limit_refuses (requestCounts : gmap client nat) (c : client) :
  (60 < count_of requestCounts c)%nat -> rate_limit requestCounts c = None.
Proof.
  intros H. unfold rate_limit.
  by destruct (Nat.ltb_spec 60 (count_of requestCounts c)); [|lia].
Qed.

Lemma count_of_insert (requestCounts : gmap client nat) (c : client) (n : nat) :
  count_of (<[c := n]> requestCounts) c = n.
Proof. unfold count_of. by rewrite lookup_insert_eq. Qed.

Lemma count_of_clear (requestCounts : gmap client nat) (c : client) :
  count_of (clear_counts requestCounts) c = 0%nat.
Proof. unfold count_of, clear_counts. by rewrite lookup_empty. Qed.

Lemma chat_admitted (providers : list provider) (requestCounts : gmap client nat)
    (req : request) :
  (count_of requestCounts (clientIP req) <= 60)%nat ->
  chat providers requestCounts req =
    {| reply :=
         match snd (process providers req) with
         | inr r => r
         | inl _ => res_json 500
                      (ErrorReply "Internal server error"
                         "An unexpected error occurred. Please try again.")
         end;
       effects := fst (process providers req);
       counts_after :=
         <[clientIP req := (count_of requestCounts (clientIP req) + 1)%nat]>
           requestCounts |}.
Proof.
  intros H. unfold Server.chat. rewrite rate_limit_admits by done.
  by destruct (process providers req) as [es [e|r]].
Qed.

Lemma chat_admitted_count (providers : list provider)
    (requestCounts : gmap client nat) (req : request) :
  (count_of requestCounts (clientIP req) <= 60)%nat ->
  count_of (counts_after (chat providers requestCounts req)) (clientIP req)
    = (count_of requestCounts (clientIP req) + 1)%nat.
Proof.
  intros Hadm. rewrite chat_admitted by done. cbn [counts_after].
  apply count_of_insert.
Qed.

Lemma chat_refused (providers : list provider) (requestCounts : gmap client nat)
    (req : request) :
  (60 < count_of requestCounts (clientIP req))%nat ->
  chat providers requestCounts req =
    {| reply := res_json 429
         (ErrorReply "Rate limit exceeded" "Please wait before making more requests");
       effects := [];
       counts_after := requestCounts |}.
Proof. intros H. unfold Server.chat. by rewrite rate_limit_refuses. Qed.

(** ** Validation *)

Lemma process_invalid (providers : list provider) (req : request) (message : value) :
  get (body req) "message" = inr message ->
  invalid_message message ->
  exists error hint, process providers req = ([], inr (res_json 400 (ErrorReply error hint))).
Proof.
  intros Hm Hinv. unfold Server.process. rewrite Hm.
  destruct (get_defined _ _ "history" _ Hm) as [history ->]. cbn [bind ret].
  destruct message as [| |b|n|s|items|props];
    try (cbn [truthy is_string negb orb]; rewrite ?orb_true_r; by eauto).
  destruct (Hinv s eq_refl) as [->|Hlong]; [by eauto|].
  cbn [is_string negb]. rewrite orb_false_r.
  destruct (negb (truthy (JStr s))); [by eauto|].
  rewrite length_gt_string.
  destruct (Z.ltb_spec 10000 (Z.of_nat (String.length s))); [by eauto|lia].
Qed.

Lemma process_valid (providers : list provider) (req : request)
    (message history : value) :
  get (body req) "message" = inr message ->
  get (body req) "history" = inr history ->
  valid_message message ->
  process providers req =
    if (length (sortedProviders providers) =? 0)%nat then
      ([], inr (res_json 503
         (ErrorReply "No API providers configured"
            "Server configuration error - please contact administrator")))
    else
      (fst (try_providers (sortedProviders providers) message history req),
       inr match snd (try_providers (sortedProviders providers) message history req) with
           | Some r => r
           | None =>
               res_json 503
                 (UnavailableReply "All AI providers are currently unavailable"
                    "Please try again in a moment. If the issue persists, contact support."
                    (name <$> sortedProviders providers))
           end).
Proof.
  intros Hm Hh (s & -> & Hne & Hlen). unfold Server.process.
  rewrite Hm, Hh. cbn [bind ret is_string negb]. rewrite orb_false_r.
  apply truthy_string in Hne. rewrite Hne. cbn [negb].
  rewrite length_gt_string.
  destruct (Z.ltb_spec 10000 (Z.of_nat (String.length s))); [lia|].
  destruct (length (sortedProviders providers) =? 0)%nat; [done|].
  by destruct (try_providers _ _ _ _) as [es [r|]].
Qed.

(** C3, as amended.  For a request that the rate limit lets in: when the
    message is missing, is not a string, is the empty string, or is longer
    than 10,000 characters, no provider is tried and nothing is sent
    upstream, and the reply has status 400; unless there is no [req.body]
    to read the message from, when the reply is the internal error, status
    500.  Nothing trims the message: every non-empty message of at most
    10,000 characters, one of blanks only included, passes the validation;
    the reply is not 400 and the eligible providers are tried in order up
    to the first that succeeds. *)
Theorem invalid_message_rejected_before_any_provider
    (providers : list provider) (requestCounts : gmap client nat) (req : request) :
  (count_of requestCounts (clientIP req) <= 60)%nat ->
  (invalid_message (get_opt (body req) "message") ->
   effects (chat providers requestCounts req) = [] /\
   reply_status (reply (chat providers requestCounts req))
     = (match body req with
        | JUndefined | JNull => 500
        | _ => 400
        end)%Z) /\
  (forall s,
     get (body req) "message" = inr (JStr s) ->
     s <> "" -> (Z.of_nat (String.length s) <= 10000)%Z ->
     reply_status (reply (chat providers requestCounts req)) <> 400%Z /\
     attempted (effects (chat providers requestCounts req))
       = up_to_first (succeeds (JStr s) (get_opt (body req) "history"))
           (sortedProviders providers)).
Proof.
  intros Hadm. rewrite chat_admitted by done. cbn [reply effects]. split.
  - unfold get_opt. intros Hinv.
    destruct (get (body req) "message") as [e|message] eqn:Hm.
    + assert (process providers req = ([], inl e)) as ->
        by (unfold Server.process; by rewrite Hm).
      split; [done|]. by destruct (body req).
    + destruct (process_invalid providers req message Hm Hinv) as (e & h & ->).
      split; [done|]. by destruct (body req).
  - intros s Hm Hne Hlen.
    destruct (get_defined _ _ "history" _ Hm) as [history Hh].
    unfold get_opt. rewrite Hh.
    rewrite (process_valid providers req (JStr s) history) by (done || by exists s).
    destruct (sortedProviders providers) as [|p ps] eqn:Hsorted; [by cbn|].
    cbn [length Nat.eqb fst snd].
    split; [|apply try_providers_attempted].
    rewrite try_providers_find.
    destruct (List.find _ _) as [w|]; cbn [mbind option_bind]; [|done].
    unfold Server.answer. by destruct (snd (attempt (JStr s) history w)).
Qed.

(** C10.  A request that the rate limit lets through has raised its
    client's counter by exactly one, whatever the validation then makes of
    it: a request turned away with status 400 for its message has used one
    unit of the window all the same. *)
Theorem admitted_request_counts_once
    (providers : list provider) (requestCounts : gmap client nat) (req : request) :
  (count_of requestCounts (clientIP req) <= 60)%nat ->
  counts_after (chat providers requestCounts req)
    = <[clientIP req := (count_of requestCounts (clientIP req) + 1)%nat]> requestCounts /\
  count_of (counts_after (chat providers requestCounts req)) (clientIP req)
    = (count_of requestCounts (clientIP req) + 1)%nat /\
  (forall message,
     get (body req) "message" = inr message -> invalid_message message ->
     reply_status (reply (chat providers requestCounts req)) = 400%Z).
Proof.
  intros Hadm. rewrite chat_admitted by done. cbn [counts_after reply].
  split; [done|]. split; [apply count_of_insert|].
  intros message Hm Hinv.
  by destruct (process_invalid providers req message Hm Hinv) as (e & h & ->).
Qed.

(** C8.  When every eligible provider has been tried and none succeeded,
    the reply has status 503 and carries two fixed sentences and the names
    of the providers tried, which are all the eligible ones in priority
    order; nothing that came back from a provider is in it. *)
Theorem all_failed_reply_lists_providers_tried
    (providers : list provider) (requestCounts : gmap client nat)
    (req : request) (message history : value) :
  (count_of requestCounts (clientIP req) <= 60)%nat ->
  get (body req) "message" = inr message ->
  get (body req) "history" = inr history ->
  valid_message message ->
  sortedProviders providers <> [] ->
  (forall p, p ∈ sortedProviders providers -> succeeds message history p = false) ->
  reply (chat providers requestCounts req)
    = res_json 503
        (UnavailableReply "All AI providers are currently unavailable"
           "Please try again in a moment. If the issue persists, contact support."
           (name <$> attempted (effects (chat providers requestCounts req)))) /\
  attempted (effects (chat providers requestCounts req)) = sortedProviders providers.
Proof.
  intros Hadm Hm Hh Hvalid Hne Hfail. rewrite chat_admitted by done.
  rewrite (process_valid providers req message history) by done.
  destruct (sortedProviders providers) as [|p ps] eqn:Hsorted; [done|].
  cbn [length Nat.eqb fst snd reply effects].
  assert (List.find (succeeds message history) (p :: ps) = None) as Hnone.
  { destruct (List.find _ _) as [w|] eqn:Hw; [|done].
    apply find_some in Hw as [Hin Hw]. apply list_elem_of_In in Hin.
    rewrite Hfail in Hw; done. }
  rewrite try_providers_find, Hnone, try_providers_exhausts by done. done.
Qed.

(** C5.  A provider whose adapter returns a text of at most 10 characters
    is passed over: the loop goes on with the providers that follow it, and
    its answer is theirs. *)
Theorem short_text_falls_through
    (p : provider) (rest : list provider) (message history : value)
    (req : request) (short : string) :
  snd (attempt message history p) = inr (JStr short) ->
  (String.length short <= 10)%nat ->
  try_providers (p :: rest) message history req
    = ((Trying p :: fst (attempt message history p)
          ++ fst (try_providers rest message history req))%list,
       snd (try_providers rest message history req)).
Proof.
  intros Hret Hlen. rewrite try_providers_cons.
  unfold Server.succeeds. rewrite Hret, acceptable_string.
  by destruct (Z.ltb_spec 10 (Z.of_nat (String.length short))); [lia|].
Qed.

(** C2, as amended.  Eligible means: a credential is present and is longer
    than 10 characters.  The eligible providers are tried in ascending
    priority, those of equal priority in configuration order.  A call
    succeeds when it returns a value that passes the loop's test,
    [response && response.length > 10]: a text succeeds exactly when it
    has more than 10 characters, a list succeeds exactly when it has more
    than 10 items, a call that throws does not succeed.  When some eligible
    provider's call succeeds, the reply to a request that the rate limit
    lets in names the provider [w] that succeeds with the least priority
    number and carries what it returned: every eligible provider that
    succeeds and is configured before [w] has a strictly greater priority
    number, and every one configured after [w] has one at least as great. *)
Theorem highest_priority_success_wins
    (providers : list provider) (requestCounts : gmap client nat)
    (req : request) (message history : value) :
  (count_of requestCounts (clientIP req) <= 60)%nat ->
  get (body req) "message" = inr message ->
  get (body req) "history" = inr history ->
  valid_message message ->
  (exists p, p ∈ providers /\ has_key p = true /\ succeeds message history p = true) ->
  (forall p, has_key p = true <->
             exists k, key p = Some k /\ (10 < String.length k)%nat) /\
  (forall p, p ∈ sortedProviders providers <-> p ∈ providers /\ has_key p = true) /\
  StronglySorted by_priority (sortedProviders providers) /\
  (forall k, of_priority k (sortedProviders providers)
             = of_priority k (List.filter has_key providers)) /\
  (forall p text,
     snd (attempt message history p) = inr (JStr text) ->
     (succeeds message history p = true <-> (10 < String.length text)%nat)) /\
  (forall p items,
     snd (attempt message history p) = inr (JArr items) ->
     (succeeds message history p = true <-> (10 < length items)%nat)) /\
  (forall p e,
     snd (attempt message history p) = inl e -> succeeds message history p = false) /\
  exists before w after response,
    providers = (before ++ w :: after)%list /\
    has_key w = true /\
    snd (attempt message history w) = inr response /\
    acceptable response = true /\
    (forall q, q ∈ before -> has_key q = true -> succeeds message history q = true ->
               (priority w < priority q)%Z) /\
    (forall q, q ∈ after -> has_key q = true -> succeeds message history q = true ->
               (priority w <= priority q)%Z) /\
    reply (chat providers requestCounts req)
      = res_json 200
          (ChatReply response (name w) (or_string (model w) "Unknown") Date_iso
             (sub (of_Z Date_now)
                  (ToNumber NumberToString StringToNumber (startTime req)))).
Proof.
  intros Hadm Hm Hh Hvalid (p & Hp & Hkey & Hsucc).
  split; [intros q; apply has_key_spec|].
  split; [intros q; apply elem_of_sortedProviders|].
  split; [apply sort_by_priority_sorted|].
  split; [intros k; apply sort_by_priority_stable|].
  split.
  { intros q text Hret. unfold Server.succeeds. rewrite Hret, acceptable_string.
    destruct (Z.ltb_spec 10 (Z.of_nat (String.length text))); split; (done || lia). }
  split.
  { intros q items Hret. unfold Server.succeeds. rewrite Hret, acceptable_list.
    destruct (Z.ltb_spec 10 (Z.of_nat (length items))); split; (done || lia). }
  split; [intros q e Hret; unfold Server.succeeds; by rewrite Hret|].
  set (P := fun q => has_key q && succeeds message history q).
  destruct (preferred_is_Some P providers p Hp) as [w Hw].
  { unfold P. by rewrite Hkey, Hsucc. }
  destruct (preferred_spec P providers w Hw)
    as (before & after & Hsplit & [Hwkey Hwsucc]%andb_prop & Hb & Ha).
  destruct (succeeds_answer message history req w Hwsucc)
    as (response & Hret & Hacc & Hans).
  exists before, w, after, response.
  repeat split; try done.
  - intros q Hq Hqk Hqs. apply Hb; [done|]. unfold P. by rewrite Hqk, Hqs.
  - intros q Hq Hqk Hqs. apply Ha; [done|]. unfold P. by rewrite Hqk, Hqs.
  - rewrite chat_admitted by done.
    rewrite (process_valid providers req message history) by done.
    assert (w ∈ sortedProviders providers) as Hin.
    { apply elem_of_sortedProviders. split; [|done]. rewrite Hsplit.
      apply elem_of_app. right. apply elem_of_cons. by left. }
    destruct (sortedProviders providers) as [|s0 ss] eqn:Hsorted;
      [by apply elem_of_nil in Hin|].
    cbn [length Nat.eqb snd reply]. rewrite <- Hsorted.
    rewrite try_providers_find, find_sortedProviders.
    fold P. rewrite Hw. cbn [mbind option_bind]. by rewrite Hans.
Qed.

(** ** What goes upstream *)

Lemma fetched_try_providers (ps : list provider) (message history : value)
    (req : request) :
  Forall (fun r => exists p, p ∈ ps /\ r ∈ fetched (fst (attempt message history p)))
         (fetched (fst (try_providers ps message history req))).
Proof.
  induction ps as [|p ps IH]; [constructor|].
  rewrite try_providers_cons.
  assert (Forall (fun r => exists q, q ∈ p :: ps /\
                      r ∈ fetched (fst (attempt message history q)))
                 (fetched (fst (attempt message history p)))) as Hp.
  { apply Forall_forall. intros r Hr. exists p. split; [by left|done]. }
  destruct (succeeds message history p); cbn [fst].
  - exact Hp.
  - change (Trying p :: ?l) with ([Trying p] ++ l)%list.
    rewrite !fetched_app.
    apply Forall_app_2; [apply ListDef.Forall_nil|].
    apply Forall_app_2; [exact Hp|].
    eapply Forall_impl; [exact IH|]. intros r (q & Hq & Hr).
    exists q. split; [by right|done].
Qed.



(** ** The adapters *)

(** C1, on the code.  A successful chat-completion response whose [choices]
    is a list is refused, whatever the list holds: the adapter looks for
    [message] on the list itself and throws. *)
Theorem choices_list_is_refused
    (p : provider) (messages : list value) (response : http_response)
    (data : value) (choices : list value) :
  fetch (openai_request env p messages) = inr response ->
  ok response = true ->
  json response = Some data ->
  get data "choices" = inr (JArr choices) ->
  callOpenAICompatible NumberToString env fetch p messages
    = ([Fetch (openai_request env p messages)],
       inl (Error ("Invalid response format from " ++ name p))).
Proof.
  intros Hfetch Hok Hjson Hchoices.
  unfold callOpenAICompatible, do_fetch, io_emit, io_lift. cbn [io_bind].
  rewrite Hfetch. cbn [io_bind]. rewrite Hok. cbn [negb].
  unfold response_json. rewrite Hjson. cbn [bind ret]. rewrite Hchoices.
  cbn [bind truthy negb].
  rewrite (get_array_name choices "message") by done. cbn [bind truthy negb].
  change (get (JArr choices) "0") with (@inr exn _ (default JUndefined (choices !! 0%nat))).
  cbn [bind]. by destruct (negb _).
Qed.

Lemma huggingface_parse_list (items : list value) :
  huggingface_parse NumberToString (JArr items)
  = inl (Error "Invalid HuggingFace response format").
Proof.
  unfold huggingface_parse. cbn [isArray].
  rewrite (get_array_name items "generated_text") by done.
  rewrite (get_array_name items "error") by done.
  change (get (JArr items) "0") with (@inr exn _ (default JUndefined (items !! 0%nat))).
  cbn [bind ret truthy]. by destruct (truthy _).
Qed.

(** A bare object with a [generated_text] gives it back. *)
Lemma huggingface_parse_object (props : list (string * value)) :
  truthy (lookup_prop "generated_text" props) = true ->
  huggingface_parse NumberToString (JObj props)
  = inr (lookup_prop "generated_text" props).
Proof. intros H. unfold huggingface_parse. cbn. by rewrite H. Qed.

(** A bare object with an [error] and no [generated_text] raises that
    error. *)
Lemma huggingface_parse_error (props : list (string * value)) :
  truthy (lookup_prop "generated_text" props) = false ->
  truthy (lookup_prop "error" props) = true ->
  huggingface_parse NumberToString (JObj props)
  = inl (Error ("HuggingFace error: "
                ++ ToString NumberToString (lookup_prop "error" props))).
Proof. intros H1 H2. unfold huggingface_parse. cbn. by rewrite H1, H2. Qed.

(** A bare object with neither is an invalid response. *)
Lemma huggingface_parse_neither (props : list (string * value)) :
  truthy (lookup_prop "generated_text" props) = false ->
  truthy (lookup_prop "error" props) = false ->
  huggingface_parse NumberToString (JObj props)
  = inl (Error "Invalid HuggingFace response format").
Proof. intros H1 H2. unfold huggingface_parse. cbn. by rewrite H1, H2. Qed.

(** C7, on the code.  A successful generic-text response whose body is a
    list is refused, whatever the list holds: [generated_text] is read off
    the list, not off its first element. *)
Theorem generated_text_list_is_refused
    (p : provider) (message : value) (response : http_response)
    (items : list value) :
  fetch (huggingface_request p message) = inr response ->
  ok response = true ->
  json response = Some (JArr items) ->
  callHuggingFace NumberToString fetch p message
    = ([Fetch (huggingface_request p message)],
       inl (Error "Invalid HuggingFace response format")).
Proof.
  intros Hfetch Hok Hjson.
  unfold callHuggingFace, do_fetch, io_emit, io_lift. cbn [io_bind].
  rewrite Hfetch. cbn [io_bind]. rewrite Hok. cbn [negb].
  unfold response_json. rewrite Hjson. cbn [bind ret].
  by rewrite huggingface_parse_list.
Qed.

(** ** The shape of a reply *)

Lemma try_providers_reply (ps : list provider) (message history : value)
    (req : request) (r : http_reply) :
  snd (try_providers ps message history req) = Some r ->
  exists w response, r = chat_reply w response req.
Proof.
  rewrite try_providers_find.
  destruct (List.find _ ps) as [w|]; [|done]. cbn [mbind option_bind].
  unfold Server.answer. destruct (snd (attempt message history w)); [done|].
  intros [= <-]. eauto.
Qed.

Lemma process_reply_shape (providers : list provider) (req : request)
    (r : http_reply) :
  snd (process providers req) = inr r -> reply_shape req r.
Proof.
  unfold Server.process.
  destruct (_ <- get (body req) "message" ;; _) as [e|[message history]]; [done|].
  destruct (_ || _); [intros [= <-]; constructor; tauto|].
  destruct (length_gt _ _ _ _); [intros [= <-]; constructor; tauto|].
  destruct (_ =? _)%nat; [intros [= <-]; constructor; tauto|].
  destruct (try_providers _ _ _ _) as [es [r'|]] eqn:Htry; intros [= <-].
  - destruct (try_providers_reply (sortedProviders providers) message history req r')
      as (w & v & ->).
    { by rewrite Htry. }
    constructor.
  - constructor.
Qed.

Lemma chat_admitted_reply_shape (providers : list provider)
    (requestCounts : gmap client nat) (req : request) :
  (count_of requestCounts (clientIP req) <= 60)%nat ->
  reply_shape req (reply (chat providers requestCounts req)).
Proof.
  intros Hadm. rewrite chat_admitted by done. cbn [reply].
  destruct (snd (process providers req)) as [e|r] eqn:Hp.
  - constructor. tauto.
  - by eapply process_reply_shape.
Qed.

Lemma reply_shape_not_429 (req : request) (r : http_reply) :
  reply_shape req r -> reply_status r <> 429%Z.
Proof. destruct 1 as [code e h Hc| |]; cbn; lia. Qed.

(** ** The application *)

Lemma dispatch_app (requestCounts : gmap client nat) (req : request) :
  dispatch app requestCounts req =
    if method_matches "GET" (method req) && route_matches "/health" (path req) then
      health env requestCounts req
    else if method_matches "POST" (method req)
            && route_matches "/api/chat" (path req) then
      chat (API_PROVIDERS env) requestCounts req
    else
      {| reply := res_json 404 NotFound; effects := [];
         counts_after := requestCounts |}.
Proof.
  unfold Server.app. cbn [dispatch].
  destruct (_ && _); [done|]. by destruct (_ && _).
Qed.

Lemma dispatch_chat (requestCounts : gmap client nat) (req : request) :
  method req = "POST" -> path req = "/api/chat" ->
  dispatch app requestCounts req = chat (API_PROVIDERS env) requestCounts req.
Proof. intros Hm Hp. rewrite dispatch_app, Hm, Hp. done. Qed.

(** C9, on the code.  The handler of the chat route answers before the
    middleware that records the start time is reached, so a request arrives
    at it without a start time, and the [processing_time_ms] of every
    successful reply is [NaN], not a number of milliseconds. *)
Theorem processing_time_is_not_a_number
    (requestCounts : gmap client nat) (req : request)
    (response : value) (provider model timestamp : string) (elapsed : number) :
  startTime req = JUndefined ->
  reply_body_of (reply (dispatch app requestCounts req))
    = ChatReply response provider model timestamp elapsed ->
  elapsed = NaN.
Proof.
  intros Hstart. rewrite dispatch_app.
  destruct (_ && _); [done|]. destruct (_ && _); [|done].
  destruct (Nat.le_gt_cases (count_of requestCounts (clientIP req)) 60) as [Hadm|Hrej].
  - destruct (chat_admitted_reply_shape (API_PROVIDERS env) requestCounts req Hadm)
      as [code e h Hc|e h l|w v]; try done.
    unfold Server.chat_reply. rewrite Hstart. cbn. by intros [= _ _ _ _ <-].
  - by rewrite chat_refused.
Qed.

(** ** The rate window *)

Lemma run_cons (requestCounts : gmap client nat) (req : request)
    (later : list event) :
  run requestCounts (Arrives req :: later) =
    (fst (run (counts_after (dispatch app requestCounts req)) later),
     reply (dispatch app requestCounts req)
       :: snd (run (counts_after (dispatch app requestCounts req)) later)).
Proof. cbn [Server.run step]. by destruct (run _ later). Qed.

(** As long as the counter stays within 61, every chat request of the
    client is let in and counted. *)
Lemma run_one_client (c : client) (reqs : list request)
    (requestCounts : gmap client nat) :
  Forall (chat_request_from c) reqs ->
  (count_of requestCounts c + length reqs <= 61)%nat ->
  Forall (fun r => reply_status r <> 429%Z)
         (snd (run requestCounts (Arrives <$> reqs))) /\
  length (snd (run requestCounts (Arrives <$> reqs))) = length reqs /\
  count_of (fst (run requestCounts (Arrives <$> reqs))) c
    = (count_of requestCounts c + length reqs)%nat.
Proof.
  intros Hreqs. revert requestCounts.
  induction Hreqs as [|req reqs (Hm & Hp & Hc) Hreqs IH]; intros requestCounts Hle.
  - cbn. repeat split; [constructor|lia].
  - cbn [length] in Hle. rewrite fmap_cons, run_cons, dispatch_chat by done.
    assert (count_of requestCounts (clientIP req) <= 60)%nat as Hadm
      by (rewrite Hc; lia).
    pose proof (chat_admitted_reply_shape (API_PROVIDERS env) requestCounts req Hadm)
      as Hshape%reply_shape_not_429.
    pose proof (chat_admitted_count (API_PROVIDERS env) requestCounts req Hadm)
      as Hcount.
    rewrite Hc in Hcount.
    destruct (IH (counts_after (chat (API_PROVIDERS env) requestCounts req)))
      as (Hall & Hlen & Hfinal); [lia|].
    cbn [fst snd length]. repeat split.
    + by constructor.
    + by rewrite Hlen.
    + rewrite Hfinal, Hcount. lia.
Qed.

(** C4, on the code.  Of 61 chat requests that one client sends within a
    window, starting from a counter of zero, all 61 are let in: none is
    answered with status 429, and the counter ends at 61.  It is the next
    request, the 62nd, that is refused, and refusing it leaves the counter
    as it was. *)
Theorem sixty_first_request_is_let_in
    (c : client) (reqs : list request) (requestCounts : gmap client nat) :
  count_of requestCounts c = 0%nat ->
  length reqs = 61%nat ->
  Forall (chat_request_from c) reqs ->
  Forall (fun r => reply_status r <> 429%Z)
         (snd (run requestCounts (Arrives <$> reqs))) /\
  length (snd (run requestCounts (Arrives <$> reqs))) = 61%nat /\
  count_of (fst (run requestCounts (Arrives <$> reqs))) c = 61%nat /\
  (forall next, chat_request_from c next ->
     reply_status (reply (dispatch app (fst (run requestCounts (Arrives <$> reqs)))
                                   next)) = 429%Z /\
     counts_after (dispatch app (fst (run requestCounts (Arrives <$> reqs))) next)
       = fst (run requestCounts (Arrives <$> reqs))).
Proof.
  intros Hzero Hlen Hreqs.
  destruct (run_one_client c reqs requestCounts Hreqs) as (Hall & Hlen' & Hfinal);
    [lia|].
  rewrite Hzero, Hlen in *. cbn [Nat.add] in Hfinal.
  split; [done|]. split; [done|]. split; [done|].
  intros next (Hm & Hp & Hc).
  rewrite dispatch_chat by done.
  rewrite chat_refused by (rewrite Hc; lia). done.
Qed.

(** After the timer has cleared the map, the client is let in again and
    its counter is 1. *)
Lemma let_in_again_after_reset (c : client) (req : request)
    (requestCounts : gmap client nat) :
  chat_request_from c req ->
  reply_status (reply (dispatch app (clear_counts requestCounts) req)) <> 429%Z /\
  count_of (counts_after (dispatch app (clear_counts requestCounts) req)) c = 1%nat.
Proof.
  intros (Hm & Hp & Hc). rewrite dispatch_chat by done.
  assert (count_of (clear_counts requestCounts) (clientIP req) <= 60)%nat as Hadm
    by (rewrite count_of_clear; lia).
  split.
  - by apply reply_shape_not_429 with req, chat_admitted_reply_shape.
  - rewrite <- Hc, chat_admitted_count, count_of_clear by done. done.
Qed.
End Facts.

(** ** The properties at work *)

Section Worked.
Import Examples.

Local Abbreviation chat_at fetch :=
  (chat NumberToString StringToNumber env_two fetch now iso).
Local Abbreviation try_at fetch :=
  (try_providers NumberToString StringToNumber env_two fetch now iso).
Local Abbreviation attempt_at fetch := (attempt NumberToString env_two fetch).

Lemma visitor_is_let_in (req : value) :
  (count_of ∅ (clientIP (post_chat req)) <= 60)%nat.
Proof. vm_compute. lia. Qed.

Lemma Hi_is_valid : valid_message (JStr "Hi").
Proof. exists "Hi". repeat split; [discriminate | simpl; lia]. Qed.

(** The adapter refuses the one-choice body of the scenario. *)
Lemma choices_list_is_refused_witness :
  callOpenAICompatible NumberToString env_two fetch_two deepseek []
  = ([Fetch (openai_request env_two deepseek [])],
     inl (Error "Invalid response format from DeepSeek-Intelligence")).
Proof.
  apply (choices_list_is_refused NumberToString env_two fetch_two deepseek []
           (ok_json hello_body) hello_body hello_choices); reflexivity.
Defined.

(** The scenario itself: priority 1 answers 503, priority 2 answers with
    the one-choice body, and the caller gets the aggregate failure. *)
Lemma two_provider_scenario :
  reply (dispatch (app NumberToString StringToNumber env_two fetch_two
                       now_start now iso) ∅ (post_chat hi))
  = res_json 503
      (UnavailableReply "All AI providers are currently unavailable"
         "Please try again in a moment. If the issue persists, contact support."
         ["Groq-Ultra-Fast"; "DeepSeek-Intelligence"]).
Proof. vm_compute. reflexivity. Qed.

(** [alpha] and [beta] share the best priority and [alpha] is configured
    first; [delta] has a better one but no usable credential. *)
Lemma highest_priority_success_wins_witness :
  exists w response,
    w ∈ three_providers /\
    reply (chat_at fetch_all_answer three_providers ∅ (post_chat hi))
    = res_json 200
        (ChatReply response (name w) (or_string (model w) "Unknown") iso NaN).
Proof.
  destruct (highest_priority_success_wins NumberToString StringToNumber env_two
              fetch_all_answer now iso three_providers ∅ (post_chat hi)
              (JStr "Hi") JUndefined)
    as (_ & _ & _ & _ & _ & _ & _ &
        before & w & after & response & Hsplit & _ & _ & _ & _ & _ & Hreply).
  - apply visitor_is_let_in.
  - reflexivity.
  - reflexivity.
  - apply Hi_is_valid.
  - exists alpha. split; [|split; reflexivity].
    apply list_elem_of_In. simpl. tauto.
  - exists w, response. split; [|exact Hreply].
    rewrite Hsplit. apply elem_of_app. right. apply elem_of_cons. by left.
Defined.

Lemma three_providers_all_answer :
  sortedProviders three_providers = [alpha; beta; gamma] /\
  reply (chat_at fetch_all_answer three_providers ∅ (post_chat hi))
  = res_json 200
      (ChatReply (JStr "alpha speaking, at your service") "alpha" "Unknown" iso NaN).
Proof. split; vm_compute; reflexivity. Qed.

(** C2, as stated, fails when the provider of best priority returns a
    list of eleven items: the only provider that returns a text of more
    than 10 characters is [gamma], and the reply names [alpha]. *)
Lemma list_answer_outranks_a_text :
  has_key alpha = true /\ has_key gamma = true /\
  (priority alpha < priority gamma)%Z /\
  snd (attempt_at fetch_alpha_list (JStr "Hi") JUndefined alpha)
    = inr (JArr eleven_items) /\
  snd (attempt_at fetch_alpha_list (JStr "Hi") JUndefined gamma)
    = inr (JStr "gamma speaking, at your service") /\
  reply (chat_at fetch_alpha_list [gamma; alpha] ∅ (post_chat hi))
    = res_json 200 (ChatReply (JArr eleven_items) "alpha" "Unknown" iso NaN).
Proof. vm_compute. repeat split; reflexivity. Qed.

(** A request without a message. *)
Lemma invalid_message_rejected_witness :
  effects (chat_at fetch_all_answer three_providers ∅ (post_chat no_message)) = [] /\
  reply_status (reply (chat_at fetch_all_answer three_providers ∅
                               (post_chat no_message))) = 400%Z.
Proof.
  apply (proj1 (invalid_message_rejected_before_any_provider NumberToString
                  StringToNumber env_two fetch_all_answer now iso three_providers ∅
                  (post_chat no_message) (visitor_is_let_in no_message))).
  intros s Hs. discriminate Hs.
Defined.

(** A request that reaches the handler with no [req.body], and one whose
    message is three spaces. *)
Lemma no_body_and_blank_message :
  reply (chat_at fetch_all_answer three_providers ∅ (post_chat JUndefined))
    = res_json 500
        (ErrorReply "Internal server error"
           "An unexpected error occurred. Please try again.") /\
  attempted (effects (chat_at fetch_all_answer three_providers ∅ (post_chat blank)))
    = [alpha].
Proof. split; vm_compute; reflexivity. Qed.

(** C3, as stated, fails on a message of three spaces: it is empty after
    trimming, and yet it is sent upstream and answered with status 200. *)
Lemma whitespace_message_reaches_a_provider :
  let o := chat NumberToString StringToNumber env_backup fetch_backup now iso
             (API_PROVIDERS env_backup) ∅ (post_chat blank) in
  reply_status (reply o) = 200%Z /\
  attempted (effects o) = [huggingface] /\
  fetched (effects o) = [huggingface_request huggingface (JStr "   ")].
Proof. vm_compute. repeat split; reflexivity. Qed.

(** [alpha], first in line, answers ["12345"]. *)
Lemma short_text_falls_through_witness :
  try_at fetch_alpha_short [alpha; beta; gamma] (JStr "Hi") JUndefined (post_chat hi)
  = ((Trying alpha :: fst (attempt_at fetch_alpha_short (JStr "Hi") JUndefined alpha)
        ++ fst (try_at fetch_alpha_short [beta; gamma] (JStr "Hi") JUndefined
                       (post_chat hi)))%list,
     snd (try_at fetch_alpha_short [beta; gamma] (JStr "Hi") JUndefined (post_chat hi))).
Proof.
  apply (short_text_falls_through NumberToString StringToNumber env_two
           fetch_alpha_short now iso alpha [beta; gamma] (JStr "Hi") JUndefined
           (post_chat hi) "12345").
  - reflexivity.
  - simpl. lia.
Defined.

Lemma five_characters_then_beta :
  reply (chat_at fetch_alpha_short three_providers ∅ (post_chat hi))
  = res_json 200
      (ChatReply (JStr "beta speaking, at your service") "beta" "Unknown" iso NaN)
  /\ attempted (effects (chat_at fetch_alpha_short three_providers ∅ (post_chat hi)))
     = [alpha; beta].
Proof. split; vm_compute; reflexivity. Qed.


(** Both providers of the scenario are tried, and both are sent the eight
    messages. *)
Lemma seven_turns_reach_both_providers :
  attempted (effects (chat_at fetch_two (API_PROVIDERS env_two) ∅
                              (post_chat hi_with_history)))
    = [groq (Some "gsk_0123456789abcdef"); deepseek].
Proof. vm_compute. reflexivity. Qed.

Lemma seven_turns_sent_as_six :
  (fun r => get_opt (fetch_body r) "messages")
    <$> fetched (effects (chat_at fetch_two (API_PROVIDERS env_two) ∅
                                  (post_chat hi_with_history)))
  = replicate 2
      (JArr [role_content "system" (JStr systemPrompt);
             turn "assistant" "two"; turn "user" "three"; turn "assistant" "four";
             turn "user" "five"; turn "assistant" "six"; turn "user" "seven";
             role_content "user" (JStr "Hi")]).
Proof. vm_compute. reflexivity. Qed.

(** The generic-text provider answers with a one-element list. *)
Lemma generated_text_list_is_refused_witness :
  callHuggingFace NumberToString fetch_backup_list huggingface (JStr "Hi")
  = ([Fetch (huggingface_request huggingface (JStr "Hi"))],
     inl (Error "Invalid HuggingFace response format")).
Proof.
  apply (generated_text_list_is_refused NumberToString fetch_backup_list huggingface
           (JStr "Hi") (ok_json list_body)
           [JObj [("generated_text", JStr backup_text)]]); reflexivity.
Defined.

(** The same text in a bare object is taken, and an [error] field is
    raised with its message. *)
Lemma generic_text_other_shapes :
  callHuggingFace NumberToString fetch_backup huggingface (JStr "Hi")
  = ([Fetch (huggingface_request huggingface (JStr "Hi"))], inr (JStr backup_text))
  /\ snd (callHuggingFace NumberToString fetch_none_answer beta (JStr "Hi"))
     = inl (Error "HuggingFace error: Model is currently loading").
Proof. split; vm_compute; reflexivity. Qed.

(** Three eligible providers, none of which answers usefully. *)
Lemma all_failed_reply_witness :
  reply (chat_at fetch_none_answer three_providers ∅ (post_chat hi))
  = res_json 503
      (UnavailableReply "All AI providers are currently unavailable"
         "Please try again in a moment. If the issue persists, contact support."
         (name <$> attempted (effects (chat_at fetch_none_answer three_providers ∅
                                               (post_chat hi))))) /\
  attempted (effects (chat_at fetch_none_answer three_providers ∅ (post_chat hi)))
  = sortedProviders three_providers.
Proof.
  apply (all_failed_reply_lists_providers_tried NumberToString StringToNumber
           env_two fetch_none_answer now iso three_providers ∅ (post_chat hi)
           (JStr "Hi") JUndefined).
  - apply visitor_is_let_in.
  - reflexivity.
  - reflexivity.
  - apply Hi_is_valid.
  - vm_compute. discriminate.
  - intros p Hp. apply list_elem_of_In in Hp. vm_compute in Hp.
    destruct Hp as [<-|[<-|[<-|[]]]]; reflexivity.
Defined.

Lemma nobody_answers :
  reply (chat_at fetch_none_answer three_providers ∅ (post_chat hi))
  = res_json 503
      (UnavailableReply "All AI providers are currently unavailable"
         "Please try again in a moment. If the issue persists, contact support."
         ["alpha"; "beta"; "gamma"]).
Proof. vm_compute. reflexivity. Qed.

(** A successful reply of the application, as registered. *)
Lemma processing_time_witness :
  startTime (post_chat hi) = JUndefined /\
  reply_body_of
    (reply (dispatch (app NumberToString StringToNumber env_backup fetch_backup
                          now_start now iso) ∅ (post_chat hi)))
  = ChatReply (JStr backup_text) "HuggingFace-Backup" "Unknown" iso NaN.
Proof.
  split; [reflexivity|].
  assert (exists elapsed,
            reply_body_of
              (reply (dispatch (app NumberToString StringToNumber env_backup
                                    fetch_backup now_start now iso) ∅ (post_chat hi)))
            = ChatReply (JStr backup_text) "HuggingFace-Backup" "Unknown" iso elapsed)
    as [elapsed Hreply] by (eexists; vm_compute; reflexivity).
  rewrite Hreply. f_equal.
  apply (processing_time_is_not_a_number NumberToString StringToNumber env_backup
           fetch_backup now_start now iso ∅ (post_chat hi)
           (JStr backup_text) "HuggingFace-Backup" "Unknown" iso elapsed).
  - reflexivity.
  - exact Hreply.
Defined.

(** The request without a message is counted. *)
Lemma admitted_request_counts_once_witness :
  count_of (counts_after (chat_at fetch_all_answer three_providers ∅
                                  (post_chat no_message))) visitor = 1%nat /\
  reply_status (reply (chat_at fetch_all_answer three_providers ∅
                               (post_chat no_message))) = 400%Z.
Proof.
  destruct (admitted_request_counts_once NumberToString StringToNumber env_two
              fetch_all_answer now iso three_providers ∅ (post_chat no_message))
    as (_ & Hcount & Hreply).
  - apply visitor_is_let_in.
  - split; [exact Hcount|].
    apply (Hreply JUndefined); [reflexivity|]. intros s Hs. discriminate Hs.
Defined.

(** Sixty-one requests of one visitor, from an empty map. *)
Lemma sixty_first_request_witness :
  Forall (fun r => reply_status r <> 429%Z)
         (snd (run NumberToString StringToNumber env_two fetch_two now_start now iso
                   ∅ (Arrives <$> replicate 61 (post_chat hi)))) /\
  length (snd (run NumberToString StringToNumber env_two fetch_two now_start now iso
                   ∅ (Arrives <$> replicate 61 (post_chat hi)))) = 61%nat.
Proof.
  destruct (sixty_first_request_is_let_in NumberToString StringToNumber env_two
              fetch_two now_start now iso visitor (replicate 61 (post_chat hi)) ∅)
    as (Hall & Hlen & _).
  - reflexivity.
  - reflexivity.
  - apply Forall_replicate. repeat split.
  - split; [exact Hall | exact Hlen].
Defined.

Lemma sixty_two_requests :
  reply_status
    <$> snd (run NumberToString StringToNumber env_two fetch_two now_start now iso
                 ∅ (Arrives <$> replicate 62 (post_chat hi)))
  = (replicate 61 503%Z ++ [429%Z])%list.
Proof. vm_compute. reflexivity. Qed.

End Worked.

(** * Further properties of the server *)

Section Further.
Context (NumberToString : number -> string) (StringToNumber : string -> number).
Context (env : environment) (fetch : fetch_request -> result http_response).
Context (Date_now_start Date_now : Z) (Date_iso : string).
Context (unread_body : value).

Local Abbreviation acceptable := (acceptable NumberToString StringToNumber).
Local Abbreviation callAIProvider := (callAIProvider NumberToString env fetch).
Local Abbreviation attempt := (attempt NumberToString env fetch).
Local Abbreviation succeeds := (succeeds NumberToString StringToNumber env fetch).
Local Abbreviation chat_reply := (chat_reply NumberToString StringToNumber Date_now Date_iso).
Local Abbreviation answer :=
  (answer NumberToString StringToNumber env fetch Date_now Date_iso).
Local Abbreviation try_providers :=
  (try_providers NumberToString StringToNumber env fetch Date_now Date_iso).
Local Abbreviation process :=
  (process NumberToString StringToNumber env fetch Date_now Date_iso).
Local Abbreviation chat := (chat NumberToString StringToNumber env fetch Date_now Date_iso).
Local Abbreviation reply_shape :=
  (reply_shape NumberToString StringToNumber Date_now Date_iso).
Local Abbreviation app :=
  (app NumberToString StringToNumber env fetch Date_now_start Date_now Date_iso).
Local Abbreviation run :=
  (run NumberToString StringToNumber env fetch Date_now_start Date_now Date_iso).
Local Abbreviation serve :=
  (serve NumberToString StringToNumber env fetch Date_now_start Date_now Date_iso
         unread_body).
Local Abbreviation counts_after_all :=
  (counts_after_all NumberToString StringToNumber env fetch Date_now_start Date_now
                    Date_iso unread_body).
Local Abbreviation is_counted_for := (is_counted_for unread_body).
Local Abbreviation express_json := (express_json unread_body).

(** ** Admission, again *)

Lemma sortedProviders_nil (providers : list provider) :
  (forall p, p ∈ providers -> has_key p = false) -> sortedProviders providers = [].
Proof.
  intros Hnone. unfold sortedProviders.
  replace (List.filter has_key providers) with (@nil provider); [done|].
  induction providers as [|p ps IH]; [done|]. simpl.
  rewrite (Hnone p) by (by left). apply IH. intros q Hq. apply Hnone. by right.
Qed.

(** X1.  When no configured provider has a usable credential, a valid
    request is answered with status 503 and the configuration error, nothing
    is tried and nothing is sent upstream; the request is counted. *)
Theorem no_eligible_provider_is_a_configuration_error
    (providers : list provider) (requestCounts : gmap client nat)
    (req : request) (message history : value) :
  (count_of requestCounts (clientIP req) <= 60)%nat ->
  get (body req) "message" = inr message ->
  get (body req) "history" = inr history ->
  valid_message message ->
  (forall p, p ∈ providers -> has_key p = false) ->
  chat providers requestCounts req =
    {| reply := res_json 503
         (ErrorReply "No API providers configured"
            "Server configuration error - please contact administrator");
       effects := [];
       counts_after :=
         <[clientIP req := (count_of requestCounts (clientIP req) + 1)%nat]>
           requestCounts |}.
Proof.
  intros Hadm Hm Hh Hvalid Hnone.
  rewrite (chat_admitted NumberToString StringToNumber env fetch Date_now Date_iso)
    by done.
  rewrite (process_valid NumberToString StringToNumber env fetch Date_now Date_iso
             providers req message history) by done.
  by rewrite sortedProviders_nil.
Qed.

(** X2.  A chat request is answered with status 429 exactly when its
    client's counter is above 60, and then nothing else happens: no provider
    is tried, nothing is sent, the map of counters is left as it was. *)
Theorem refused_exactly_above_sixty
    (providers : list provider) (requestCounts : gmap client nat) (req : request) :
  (reply_status (reply (chat providers requestCounts req)) = 429%Z
   <-> (60 < count_of requestCounts (clientIP req))%nat) /\
  (reply_status (reply (chat providers requestCounts req)) = 429%Z ->
   effects (chat providers requestCounts req) = [] /\
   counts_after (chat providers requestCounts req) = requestCounts).
Proof.
  destruct (Nat.le_gt_cases (count_of requestCounts (clientIP req)) 60) as [Hadm|Hrej].
  - pose proof (chat_admitted_reply_shape NumberToString StringToNumber env fetch
                  Date_now Date_iso providers requestCounts req Hadm) as Hshape.
    apply reply_shape_not_429 in Hshape. split; [split; [done|lia]|done].
  - rewrite (chat_refused NumberToString StringToNumber env fetch Date_now Date_iso)
      by done.
    cbn. split; [split; [done|reflexivity]|done].
Qed.

Lemma method_matches_POST (m : string) :
  method_matches "POST" m = String.eqb m "POST".
Proof. unfold method_matches. cbn. apply orb_false_r. Qed.

Lemma not_GET_when_POST (m : string) :
  String.eqb m "POST" = true -> method_matches "GET" m = false.
Proof. intros ->%String.eqb_eq. reflexivity. Qed.

(** What happens to the counters when the request has reached [app]. *)
Lemma dispatch_counts (requestCounts : gmap client nat) (req : request) :
  (method_matches "POST" (method req) && route_matches "/api/chat" (path req) = true ->
   dispatch app requestCounts req = chat (API_PROVIDERS env) requestCounts req) /\
  (method_matches "POST" (method req) && route_matches "/api/chat" (path req) = false ->
   counts_after (dispatch app requestCounts req) = requestCounts /\
   effects (dispatch app requestCounts req) = []).
Proof.
  rewrite (dispatch_app NumberToString StringToNumber env fetch
             Date_now_start Date_now Date_iso).
  split.
  - intros Hchat. rewrite Hchat.
    apply andb_prop in Hchat as [Hm _]. rewrite method_matches_POST in Hm.
    by rewrite (not_GET_when_POST _ Hm).
  - intros ->. by destruct (_ && _).
Qed.

Lemma chat_count (providers : list provider) (requestCounts : gmap client nat)
    (req : request) (c : client) :
  count_of (counts_after (chat providers requestCounts req)) c =
    if bool_decide (clientIP req = c) && (count_of requestCounts c <=? 60)%nat
    then (count_of requestCounts c + 1)%nat
    else count_of requestCounts c.
Proof.
  destruct (Nat.le_gt_cases (count_of requestCounts (clientIP req)) 60) as [Hadm|Hrej].
  - rewrite (chat_admitted NumberToString StringToNumber env fetch Date_now Date_iso)
      by done.
    cbn [counts_after]. case_bool_decide as Hc.
    + subst c. rewrite count_of_insert.
      by destruct (Nat.leb_spec (count_of requestCounts (clientIP req)) 60); [|lia].
    + unfold count_of. by rewrite lookup_insert_ne.
  - rewrite (chat_refused NumberToString StringToNumber env fetch Date_now Date_iso)
      by done.
    cbn [counts_after]. case_bool_decide as Hc; [|done]. subst c.
    by destruct (Nat.leb_spec (count_of requestCounts (clientIP req)) 60); [lia|].
Qed.

Lemma chat_other (providers : list provider) (requestCounts : gmap client nat)
    (req : request) (other : client) :
  other <> clientIP req ->
  counts_after (chat providers requestCounts req) !! other = requestCounts !! other.
Proof.
  intros Hother.
  destruct (Nat.le_gt_cases (count_of requestCounts (clientIP req)) 60) as [Hadm|Hrej].
  - rewrite (chat_admitted NumberToString StringToNumber env fetch Date_now Date_iso)
      by done.
    cbn [counts_after]. by rewrite lookup_insert_ne.
  - by rewrite (chat_refused NumberToString StringToNumber env fetch Date_now
                  Date_iso) by done.
Qed.

Lemma serve_unfold (requestCounts : gmap client nat) (a : arrival) :
  serve requestCounts a =
    match cors a, express_json a with
    | None, Some parsed =>
        if method_matches "POST" (verb a) && route_matches "/api/chat" (pathname a)
        then chat (API_PROVIDERS env) requestCounts (request_of a parsed)
        else dispatch app requestCounts (request_of a parsed)
    | None, None =>
        {| reply := error_handler; effects := []; counts_after := requestCounts |}
    | Some preflight, _ =>
        {| reply := preflight; effects := []; counts_after := requestCounts |}
    end.
Proof.
  unfold Server.serve. destruct (cors a); [done|].
  destruct (express_json a) as [parsed|]; [|done].
  destruct (_ && _) eqn:Hchat; [|done].
  by apply (dispatch_counts requestCounts (request_of a parsed)).
Qed.

(** X3.  Handling a request changes no counter but that of the client it
    came from; and a request that is a preflight, or that the JSON parser
    refuses, or that is not a POST for the chat route, changes no counter at
    all and contacts no provider. *)
Theorem only_the_requester_is_counted
    (requestCounts : gmap client nat) (a : arrival) :
  (forall other, other <> client_of a ->
     counts_after (serve requestCounts a) !! other = requestCounts !! other) /\
  (is_counted_for (client_of a) a = false ->
   counts_after (serve requestCounts a) = requestCounts /\
   effects (serve requestCounts a) = []).
Proof.
  rewrite serve_unfold. unfold Server.is_counted_for.
  destruct (cors a); [done|]. destruct (express_json a) as [parsed|]; [|done].
  destruct (_ && _) eqn:Hchat.
  - split.
    + intros other Hother. by apply chat_other.
    + cbn [andb]. intros Hc. by apply bool_decide_eq_false in Hc.
  - split.
    + intros other _.
      by destruct (proj2 (dispatch_counts requestCounts (request_of a parsed)) Hchat)
        as [-> _].
    + intros _. by apply (dispatch_counts requestCounts (request_of a parsed)).
Qed.

(** X4.  A POST for the chat route that comes without a JSON body is
    counted, when it is let in, and contacts no provider.  Where the parser
    leaves [req.body] undefined for such a request, the handler throws on
    reading the message off it and the reply is the internal error, status
    500; where the parser leaves the empty object, the reply is status 400,
    "Message is required". *)
Theorem request_without_a_body
    (requestCounts : gmap client nat) (a : arrival) :
  verb a = "POST" ->
  route_matches "/api/chat" (pathname a) = true ->
  sent a = Unread ->
  (count_of requestCounts (client_of a) <= 60)%nat ->
  (unread_body = JUndefined ->
   serve requestCounts a =
     {| reply := res_json 500
          (ErrorReply "Internal server error"
             "An unexpected error occurred. Please try again.");
        effects := [];
        counts_after :=
          <[client_of a := (count_of requestCounts (client_of a) + 1)%nat]>
            requestCounts |}) /\
  (unread_body = JObj [] ->
   serve requestCounts a =
     {| reply := res_json 400
          (ErrorReply "Message is required" "Please provide a valid message string");
        effects := [];
        counts_after :=
          <[client_of a := (count_of requestCounts (client_of a) + 1)%nat]>
            requestCounts |}).
Proof.
  intros Hverb Hroute Hsent Hadm.
  rewrite serve_unfold. unfold Server.cors, Server.express_json.
  rewrite Hverb, Hsent, Hroute. cbn [String.eqb Ascii.eqb Bool.eqb].
  change (method_matches "POST" "POST" && true) with true. cbv iota.
  rewrite (chat_admitted NumberToString StringToNumber env fetch Date_now Date_iso)
    by done.
  unfold Server.process. cbn [request_of body].
  split; intros ->; reflexivity.
Qed.

(** ** The counters over a run *)

Lemma serve_count (requestCounts : gmap client nat) (a : arrival) (c : client) :
  count_of (counts_after (serve requestCounts a)) c =
    if is_counted_for c a && (count_of requestCounts c <=? 60)%nat
    then (count_of requestCounts c + 1)%nat
    else count_of requestCounts c.
Proof.
  rewrite serve_unfold. unfold Server.is_counted_for.
  destruct (cors a); [done|]. destruct (express_json a) as [parsed|]; [|done].
  destruct (_ && _) eqn:Hchat; cbn [andb].
  - apply chat_count.
  - by destruct (proj2 (dispatch_counts requestCounts (request_of a parsed)) Hchat)
      as [-> _].
Qed.

Lemma counts_after_all_window (evs : list wire_event)
    (requestCounts : gmap client nat) (earlier : list arrival) (c : client) :
  count_of requestCounts c
    = Nat.min 61 (length (List.filter (is_counted_for c) earlier)) ->
  count_of (counts_after_all requestCounts evs) c
    = Nat.min 61 (length (List.filter (is_counted_for c)
                            (arrivals_of_window earlier evs))).
Proof.
  revert requestCounts earlier.
  induction evs as [|[a|] later IH]; intros requestCounts earlier Hinv.
  - exact Hinv.
  - cbn [Server.counts_after_all arrivals_of_window].
    apply IH. rewrite serve_count, List.filter_app, length_app. cbn [List.filter].
    destruct (is_counted_for c a); cbn [andb length]; [|lia].
    destruct (Nat.leb_spec (count_of requestCounts c) 60); lia.
  - cbn [Server.counts_after_all arrivals_of_window].
    apply IH. by rewrite count_of_clear.
Qed.

(** X5.  After any sequence of requests and timer ticks, starting with no
    counters, the counter of a client is the number of requests it has sent
    since the timer last fired that reached the chat handler (a POST that
    matches the chat route, that is not a preflight, and whose body the
    JSON parser did not refuse), capped at 61.  So no counter ever exceeds
    61, whatever arrives and in whatever order. *)
Theorem counter_is_the_window_capped (evs : list wire_event) (c : client) :
  count_of (counts_after_all ∅ evs) c
    = Nat.min 61 (length (List.filter (is_counted_for c)
                            (arrivals_of_window [] evs))) /\
  (count_of (counts_after_all ∅ evs) c <= 61)%nat.
Proof.
  assert (count_of (counts_after_all ∅ evs) c
          = Nat.min 61 (length (List.filter (is_counted_for c)
                                  (arrivals_of_window [] evs))))
    as H by (by apply counts_after_all_window).
  split; [exact H|]. rewrite H. lia.
Qed.

(** ** The loop, again *)

Lemma chat_effects (providers : list provider) (requestCounts : gmap client nat)
    (req : request) :
  effects (chat providers requestCounts req) = [] \/
  exists message history,
    get (body req) "message" = inr message /\
    get (body req) "history" = inr history /\
    valid_message message /\
    effects (chat providers requestCounts req)
      = fst (try_providers (sortedProviders providers) message history req).
Proof.
  unfold Server.chat. destruct (rate_limit _ _); [|by left].
  unfold Server.process.
  destruct (get (body req) "message") as [e|message] eqn:Hm; [by left|].
  destruct (get (body req) "history") as [e|history] eqn:Hh; [by left|].
  cbn [bind ret].
  destruct message as [| |b|n|s|items|props];
    try (cbn [truthy is_string negb orb]; rewrite ?orb_true_r; by left).
  cbn [is_string negb]. rewrite orb_false_r.
  destruct (truthy (JStr s)) eqn:Hs; [|by left]. cbn [negb].
  rewrite length_gt_string.
  destruct (Z.ltb_spec 10000 (Z.of_nat (String.length s))); [by left|].
  destruct (_ =? _)%nat eqn:Hlen; [by left|].
  right. exists (JStr s), history. repeat split.
  - exists s. repeat split; [by apply truthy_string|lia].
  - by destruct (try_providers _ _ _ _) as [es [r|]].
Qed.

(** X6.  The providers a request tries are the eligible ones in priority
    order, up to and including the first that succeeds: none is tried twice,
    none after a success, none without a usable credential; and each try
    sends at most one request upstream. *)
Theorem tries_stop_at_the_first_success
    (providers : list provider) (requestCounts : gmap client nat)
    (req : request) (message history : value) :
  (count_of requestCounts (clientIP req) <= 60)%nat ->
  get (body req) "message" = inr message ->
  get (body req) "history" = inr history ->
  valid_message message ->
  attempted (effects (chat providers requestCounts req))
    = up_to_first (succeeds message history) (sortedProviders providers) /\
  (length (fetched (effects (chat providers requestCounts req)))
   <= length (attempted (effects (chat providers requestCounts req))))%nat.
Proof.
  intros Hadm Hm Hh Hvalid. rewrite chat_admitted by done.
  rewrite (process_valid _ _ _ _ _ _ providers req message history) by done.
  cbn [effects].
  destruct (sortedProviders providers) as [|p ps] eqn:Hsorted; [by cbn|].
  cbn [length Nat.eqb fst]. apply try_providers_attempted.
Qed.

(** X7.  A provider's answer is taken only if the call came back with a
    success status and a JSON body: when the call fails, when the status is
    not a success, when the body is not JSON, the provider does not
    succeed. *)
Theorem success_needs_an_ok_json_response
    (p : provider) (message history : value) :
  succeeds message history p = true ->
  exists r response data,
    fst (attempt message history p) = [Fetch r] /\
    fetch r = inr response /\
    ok response = true /\
    json response = Some data.
Proof.
  unfold Server.succeeds, Server.attempt, Server.callAIProvider.
  destruct (build_messages _ _) as [e|messages]; [done|]. cbn [io_lift io_bind].
  destruct (String.eqb (type p) "openai-compatible").
  - unfold callOpenAICompatible, do_fetch, io_emit, io_lift. cbn [io_bind].
    destruct (fetch _) as [e|response] eqn:Hfetch; [done|]. cbn [io_bind app].
    destruct (ok response) eqn:Hok; cbn [negb].
    + unfold response_json. destruct (json response) as [data|] eqn:Hjson; [|done].
      intros _. exists (openai_request env p messages), response, data.
      by destruct (_ <- ret data ;; _).
    + by destruct (openai_error_text NumberToString response).
  - destruct (String.eqb (type p) "huggingface"); [|done].
    unfold callHuggingFace, do_fetch, io_emit, io_lift. cbn [io_bind].
    destruct (fetch _) as [e|response] eqn:Hfetch; [done|]. cbn [io_bind app].
    destruct (ok response) eqn:Hok; cbn [negb]; [|done].
    unfold response_json. destruct (json response) as [data|] eqn:Hjson; [|done].
    intros _. exists (huggingface_request p message), response, data.
      by destruct (_ <- ret data ;; _).
Qed.

(** X8.  A reply of status 200 always comes from an eligible provider whose
    call returned a response the loop accepts (for a text: more than 10
    characters), to a request with a valid message; it carries that response
    and that provider's name. *)
Theorem success_reply_has_a_source
    (providers : list provider) (requestCounts : gmap client nat) (req : request) :
  reply_status (reply (chat providers requestCounts req)) = 200%Z ->
  exists message history w response,
    get (body req) "message" = inr message /\
    get (body req) "history" = inr history /\
    valid_message message /\
    w ∈ providers /\ has_key w = true /\
    snd (attempt message history w) = inr response /\
    acceptable response = true /\
    reply (chat providers requestCounts req) = chat_reply w response req.
Proof.
  destruct (Nat.le_gt_cases (count_of requestCounts (clientIP req)) 60) as [Hadm|Hrej];
    [|by rewrite chat_refused by done].
  destruct (chat_effects providers requestCounts req)
    as [Hnone|(message & history & Hm & Hh & Hvalid & _)].
  - (* nothing was tried: the reply is an error *)
    revert Hnone. unfold Server.chat. rewrite rate_limit_admits by done.
    unfold Server.process.
    destruct (_ <- get (body req) "message" ;; _) as [e|[message history]]; [done|].
    destruct (_ || _); [done|]. destruct (length_gt _ _ _ _); [done|].
    destruct (_ =? _)%nat; [done|].
    destruct (try_providers (sortedProviders providers) message history req)
      as [es [r|]] eqn:Htry; [|done].
    destruct (sortedProviders providers) as [|p ps]; [done|].
    rewrite try_providers_cons in Htry.
    destruct (succeeds message history p); by inversion Htry.
  - rewrite chat_admitted by done.
    rewrite (process_valid _ _ _ _ _ _ providers req message history) by done.
    destruct (_ =? _)%nat; [done|]. cbn [snd reply].
    rewrite try_providers_find.
    destruct (List.find _ _) as [w|] eqn:Hfind; [|done].
    apply find_some in Hfind as [Hin Hsucc].
    apply list_elem_of_In, elem_of_sortedProviders in Hin as [Hin Hkey].
    destruct (succeeds_answer NumberToString StringToNumber env fetch Date_now
                Date_iso message history req w Hsucc)
      as (response & Hret & Hacc & Hans).
    cbn [mbind option_bind]. rewrite Hans. intros _.
    by exists message, history, w, response.
Qed.

Lemma attempted_trying (ps : list provider) : attempted (Trying <$> ps) = ps.
Proof. induction ps as [|p ps IH]; [done|]. cbn. by f_equal. Qed.

Lemma fetched_trying (ps : list provider) : fetched (Trying <$> ps) = [].
Proof. induction ps as [|p ps IH]; [done|]. exact IH. Qed.

(** X9.  A provider of a type the server does not know is tried and fails
    without anything being sent upstream. *)
Theorem unknown_type_sends_nothing
    (p : provider) (message history : value) :
  type p <> "openai-compatible" ->
  type p <> "huggingface" ->
  fst (attempt message history p) = [] /\
  succeeds message history p = false /\
  (forall messages,
     build_messages message (or_else history (JArr [])) = inr messages ->
     snd (attempt message history p)
       = inl (Error ("Unsupported provider type: " ++ type p))).
Proof.
  intros H1%String.eqb_neq H2%String.eqb_neq.
  unfold Server.succeeds, Server.attempt, Server.callAIProvider.
  destruct (build_messages _ _) as [e|messages]; cbn [io_lift io_bind].
  - by repeat split.
  - rewrite H1, H2. by repeat split.
Qed.

(** X10.  A history that is neither absent, nor a list, nor a string makes
    every attempt fail before anything is sent: with at least one eligible
    provider the reply is the aggregate failure naming them all, and no
    request went upstream. *)
Theorem malformed_history_fails_every_provider
    (providers : list provider) (requestCounts : gmap client nat)
    (req : request) (message history : value) :
  (count_of requestCounts (clientIP req) <= 60)%nat ->
  get (body req) "message" = inr message ->
  get (body req) "history" = inr history ->
  valid_message message ->
  truthy history = true -> isArray history = false -> is_string history = false ->
  sortedProviders providers <> [] ->
  reply (chat providers requestCounts req)
    = res_json 503
        (UnavailableReply "All AI providers are currently unavailable"
           "Please try again in a moment. If the issue persists, contact support."
           (name <$> sortedProviders providers)) /\
  attempted (effects (chat providers requestCounts req)) = sortedProviders providers /\
  fetched (effects (chat providers requestCounts req)) = [].
Proof.
  intros Hadm Hm Hh Hvalid Htruthy Harr Hstr Hne.
  assert (forall p, attempt message history p
                    = ([], inl (TypeError "history.slice is not a function")))
    as Hattempt.
  { intros p. unfold Server.attempt, Server.callAIProvider, or_else.
    rewrite Htruthy. by destruct history. }
  assert (forall ps, try_providers ps message history req
                     = (Trying <$> ps, None)) as Htry.
  { induction ps as [|p ps IH]; [done|].
    rewrite try_providers_cons. unfold Server.succeeds.
    rewrite Hattempt, IH. done. }
  rewrite chat_admitted by done.
  rewrite (process_valid _ _ _ _ _ _ providers req message history) by done.
  destruct (sortedProviders providers) as [|p ps] eqn:Hsorted; [done|].
  cbn [length Nat.eqb]. rewrite Htry. cbn [fst snd reply effects].
  split; [done|]. split; [apply attempted_trying | apply fetched_trying].
Qed.

(** ** What goes upstream, again *)



(** X12.  Every request sent upstream goes by POST to the endpoint of an
    eligible provider, with a timeout of 30 seconds and that provider's
    credential, longer than 10 characters, as its bearer token. *)
Theorem upstream_requests_carry_the_credential
    (providers : list provider) (requestCounts : gmap client nat) (req : request) :
  Forall (fun r =>
            exists p k, p ∈ providers /\ key p = Some k /\
              (10 < String.length k)%nat /\
              fetch_url r = url p /\
              fetch_method r = "POST" /\
              fetch_timeout r = 30000%Z /\
              header "Authorization" (fetch_headers r) = Some ("Bearer " ++ k))
         (fetched (effects (chat providers requestCounts req))).
Proof.
  destruct (chat_effects providers requestCounts req)
    as [->|(message & history & Hm & Hh & _ & ->)]; [constructor|].
  eapply Forall_impl; [apply fetched_try_providers|].
  intros r (p & [Hp Hkey]%elem_of_sortedProviders & Hr).
  apply has_key_spec in Hkey as (k & Hk & Hlen).
  exists p, k. split; [done|]. split; [done|]. split; [done|].
  unfold Server.attempt in Hr. rewrite callAIProvider_effects in Hr.
  destruct (build_messages _ _) as [e|messages]; [by apply elem_of_nil in Hr|].
  destruct (String.eqb (type p) "openai-compatible").
  - apply list_elem_of_singleton in Hr as ->. cbn. by rewrite Hk.
  - destruct (String.eqb (type p) "huggingface"); [|by apply elem_of_nil in Hr].
    apply list_elem_of_singleton in Hr as ->. cbn. by rewrite Hk.
Qed.

(** ** The adapters, again *)

Lemma callOpenAICompatible_unfold (p : provider) (messages : list value)
    (response : http_response) :
  fetch (openai_request env p messages) = inr response ->
  callOpenAICompatible NumberToString env fetch p messages =
    ([Fetch (openai_request env p messages)],
     if negb (ok response) then
       errorText <- openai_error_text NumberToString response ;;
       throw (Error (name p ++ " API error: " ++ errorText))
     else
       data <- response_json response ;;
       choices <- get data "choices" ;;
       if negb (truthy choices) then
         throw (Error ("Invalid response format from " ++ name p))
       else
         first <- get choices "0" ;;
         if negb (truthy first) then
           throw (Error ("Invalid response format from " ++ name p))
         else
           message <- get choices "message" ;;
           if negb (truthy message) then
             throw (Error ("Invalid response format from " ++ name p))
           else get message "content").
Proof.
  intros Hfetch.
  unfold callOpenAICompatible, do_fetch, io_emit, io_lift. cbn [io_bind].
  rewrite Hfetch. cbn [io_bind app].
  destruct (negb (ok response)).
  - by destruct (openai_error_text NumberToString response).
  - by destruct (_ <- response_json response ;; _).
Qed.

(** X13.  A failed chat-completion call whose JSON body has a text under
    [error.message] raises "<name> API error: <that text>"; a JSON body with
    nothing usable under [error.message] nor under [message] raises
    "<name> API error: Unknown error". *)
Theorem api_error_carries_the_upstream_message
    (p : provider) (messages : list value) (response : http_response)
    (props : list (string * value)) :
  fetch (openai_request env p messages) = inr response ->
  ok response = false ->
  json response = Some (JObj props) ->
  (forall text,
     get_opt (lookup_prop "error" props) "message" = JStr text -> text <> "" ->
     snd (callOpenAICompatible NumberToString env fetch p messages)
       = inl (Error (name p ++ " API error: " ++ text))) /\
  (truthy (get_opt (lookup_prop "error" props) "message") = false ->
   truthy (lookup_prop "message" props) = false ->
   snd (callOpenAICompatible NumberToString env fetch p messages)
     = inl (Error (name p ++ " API error: Unknown error"))).
Proof.
  intros Hfetch Hok Hjson.
  rewrite (callOpenAICompatible_unfold p messages response Hfetch), Hok.
  cbn [snd negb]. unfold openai_error_text, response_json. rewrite Hjson.
  cbn [bind ret get]. unfold or_else. split.
  - intros text -> Htext%truthy_string.
    rewrite Htext. cbv beta iota. rewrite Htext. reflexivity.
  - intros -> Htop. cbn [get_opt get ret]. rewrite Htop. cbv beta iota.
    reflexivity.
Qed.

(** X14.  A failed chat-completion call whose body is not JSON falls back
    on a second read of the body.  When that read gives the empty text (the
    response had no body) the error is "<name> API error: HTTP <status>";
    when it gives a text, the text is the detail; when it is rejected (the
    body has been consumed by the first read) the rejection itself is what
    the adapter throws. *)
Theorem non_json_error_body_falls_back_on_a_second_read
    (p : provider) (messages : list value) (response : http_response) :
  fetch (openai_request env p messages) = inr response ->
  ok response = false ->
  json response = None ->
  (text_after_json response = inr "" ->
   snd (callOpenAICompatible NumberToString env fetch p messages)
     = inl (Error (name p ++ " API error: HTTP "
                   ++ NumberToString (of_Z (status response))))) /\
  (forall raw, text_after_json response = inr raw -> raw <> "" ->
   snd (callOpenAICompatible NumberToString env fetch p messages)
     = inl (Error (name p ++ " API error: " ++ raw))) /\
  (forall e, text_after_json response = inl e ->
   snd (callOpenAICompatible NumberToString env fetch p messages) = inl e).
Proof.
  intros Hfetch Hok Hjson.
  rewrite (callOpenAICompatible_unfold p messages response Hfetch), Hok.
  cbn [snd negb]. unfold openai_error_text, response_json. rewrite Hjson.
  cbn [bind throw]. split; [|split].
  - by intros ->.
  - intros raw -> Hraw%String.eqb_neq. cbn [bind ret]. by rewrite Hraw.
  - by intros e ->.
Qed.

(** X15.  The chat-completion adapter returns a value only for a success
    response whose [choices] is an object (not a list, not a text) with
    something under ["0"] and something under [message]; the value is the
    [content] of that [message]. *)
Theorem chat_completion_returns_only_for_object_choices
    (p : provider) (messages : list value) (v : value) :
  snd (callOpenAICompatible NumberToString env fetch p messages) = inr v ->
  exists response data choices,
    fetch (openai_request env p messages) = inr response /\
    ok response = true /\
    json response = Some data /\
    get data "choices" = inr (JObj choices) /\
    truthy (lookup_prop "0" choices) = true /\
    truthy (lookup_prop "message" choices) = true /\
    get (lookup_prop "message" choices) "content" = inr v.
Proof.
  destruct (fetch (openai_request env p messages)) as [e|response] eqn:Hfetch.
  { unfold callOpenAICompatible, do_fetch, io_emit, io_lift. cbn [io_bind].
    by rewrite Hfetch. }
  rewrite (callOpenAICompatible_unfold p messages response Hfetch). cbn [snd].
  destruct (ok response) eqn:Hok; cbn [negb];
    [|by destruct (openai_error_text NumberToString response)].
  unfold response_json.
  destruct (json response) as [data|] eqn:Hjson; [|done]. cbn [bind ret].
  destruct (get data "choices") as [e|choices] eqn:Hchoices; [done|]. cbn [bind].
  destruct (truthy choices) eqn:Htruthy; [|done]. cbn [negb].
  destruct choices as [| |b|n|s|items|props]; try done.
  - (* a text: [message] is undefined *)
    destruct (get (JStr s) "0") as [e|first]; [done|]. cbn [bind].
    by destruct (negb (truthy first)).
  - (* a list: [message] is undefined *)
    rewrite (get_array_name items "message") by done.
    destruct (get (JArr items) "0") as [e|first]; [done|]. cbn [bind].
    by destruct (negb (truthy first)).
  - cbn [get ret bind].
    destruct (truthy (lookup_prop "0" props)) eqn:H0; [|done]. cbn [negb].
    destruct (truthy (lookup_prop "message" props)) eqn:Hmsg; [|done]. cbn [negb].
    intros Hv. by exists response, data, props.
Qed.

(** X16.  The generic-text adapter returns a value only for a success
    response whose body is a bare object, and the value is its
    [generated_text], which is truthy (a text is not empty). *)
Theorem generic_text_returns_only_a_bare_object_field
    (p : provider) (message v : value) :
  snd (callHuggingFace NumberToString fetch p message) = inr v ->
  exists response props,
    fetch (huggingface_request p message) = inr response /\
    ok response = true /\
    json response = Some (JObj props) /\
    v = lookup_prop "generated_text" props /\
    truthy v = true.
Proof.
  unfold callHuggingFace, do_fetch, io_emit, io_lift. cbn [io_bind].
  destruct (fetch (huggingface_request p message)) as [e|response] eqn:Hfetch;
    [done|].
  cbn [io_bind app]. destruct (ok response) eqn:Hok; cbn [negb]; [|done].
  unfold response_json. destruct (json response) as [data|] eqn:Hjson; [|done].
  cbn [bind ret snd].
  destruct data as [| |b|n|s|items|props]; try done.
  - by rewrite huggingface_parse_list.
  - destruct (truthy (lookup_prop "generated_text" props)) eqn:Hg.
    + rewrite huggingface_parse_object by done. intros [= <-].
      by exists response, props.
    + destruct (truthy (lookup_prop "error" props)) eqn:He.
      * by rewrite huggingface_parse_error.
      * by rewrite huggingface_parse_neither.
Qed.

End Further.

(** ** The provider list, again *)

Lemma string_length_app (s1 s2 : string) :
  String.length (s1 ++ s2) = (String.length s1 + String.length s2)%nat.
Proof. induction s1 as [|c s1 IH]; [done|]. simpl. by rewrite IH. Qed.

Lemma placeholder_key_is_long (p : provider) :
  (18 <= String.length (placeholder_key p))%nat.
Proof. unfold placeholder_key. rewrite !string_length_app. cbn. lia. Qed.

Lemma missingKeys_nil (providers : list provider) :
  (forall p, p ∈ providers -> key_missing p = false) -> missingKeys providers = [].
Proof.
  intros Hall. unfold missingKeys.
  induction providers as [|p ps IH]; [done|]. cbn.
  rewrite (Hall p) by (by left). apply IH. intros q Hq. apply Hall. by right.
Qed.

(** X17.  The placeholder credential of a provider, as the start-up check
    spells it, is eligible: the check reports the keys as not valid, and the
    chat route has that provider on its list all the same. *)
Theorem placeholder_key_is_eligible (providers : list provider) (p : provider) :
  p ∈ providers ->
  key p = Some (placeholder_key p) ->
  validateAPIKeys providers = false /\
  name p ∈ missingKeys providers /\
  p ∈ sortedProviders providers.
Proof.
  intros Hin Hkey.
  assert (key_missing p = true) as Hmissing.
  { unfold key_missing. rewrite Hkey, String.eqb_refl. apply orb_true_r. }
  assert (name p ∈ missingKeys providers) as Hname.
  { unfold missingKeys. apply list_elem_of_fmap. exists p. split; [done|].
    apply list_elem_of_In, filter_In. split; [by apply list_elem_of_In|done]. }
  split; [|split; [done|]].
  - unfold validateAPIKeys. destruct (missingKeys providers); [by apply elem_of_nil in Hname|done].
  - apply elem_of_sortedProviders. split; [done|]. apply has_key_spec.
    exists (placeholder_key p). split; [done|].
    pose proof (placeholder_key_is_long p). lia.
Qed.

(** X18.  Keys that are present but of at most 10 characters pass the
    start-up check and are eligible nowhere: the check reports the keys as
    valid while the chat route finds no provider configured. *)
Theorem short_keys_pass_the_check_and_serve_nothing (providers : list provider) :
  (forall p, p ∈ providers ->
     exists k, key p = Some k /\ k <> "" /\ (String.length k <= 10)%nat) ->
  validateAPIKeys providers = true /\ sortedProviders providers = [].
Proof.
  intros Hshort. split.
  - unfold validateAPIKeys. rewrite missingKeys_nil; [done|].
    intros p (k & Hk & Hne & Hlen)%Hshort. unfold key_missing. rewrite Hk.
    apply orb_false_intro; [by apply String.eqb_neq|].
    apply String.eqb_neq. intros ->.
    pose proof (placeholder_key_is_long p). lia.
  - apply sortedProviders_nil.
    intros p (k & Hk & Hne & Hlen)%Hshort.
    destruct (has_key p) eqn:Hkey; [|done].
    apply has_key_spec in Hkey as (k' & Hk' & Hlen'). rewrite Hk in Hk'.
    injection Hk' as <-. lia.
Qed.

Lemma insert_by_priority_perm (p : provider) (sorted : list provider) :
  insert_by_priority p sorted ≡ₚ p :: sorted.
Proof.
  induction sorted as [|q rest IH]; [done|]. cbn.
  destruct (priority p <=? priority q)%Z; [done|].
  rewrite IH. apply perm_swap.
Qed.

(** X19.  Sorting neither loses nor repeats a provider: the list the chat
    route goes through is a rearrangement of the eligible providers of the
    configuration, so it has as many entries. *)
Theorem sortedProviders_rearranges_the_eligible (providers : list provider) :
  sortedProviders providers ≡ₚ List.filter has_key providers /\
  length (sortedProviders providers) = length (List.filter has_key providers).
Proof.
  assert (sortedProviders providers ≡ₚ List.filter has_key providers) as Hperm.
  { unfold sortedProviders. induction (List.filter has_key providers) as [|p ps IH];
      [done|].
    cbn. by rewrite insert_by_priority_perm, IH. }
  split; [exact Hperm|]. by rewrite Hperm.
Qed.

(** * Properties of the front end *)

Section ClientFacts.
Import Client.
Context (NumberToString : number -> string).
Context (backendURL : string) (backend : chat_call -> result http_response).

Local Abbreviation getAIResponse := (getAIResponse NumberToString backendURL backend).
Local Abbreviation processUserMessage :=
  (processUserMessage NumberToString backendURL backend).

Lemma trim_end_empty (s : string) : trim_end s = "" <-> blank s = true.
Proof.
  induction s as [|c s IH]; [done|]. cbn.
  destruct (trim_end s) as [|c' kept] eqn:Hend.
  - destruct (is_whitespace c); cbn; [tauto|]. split; [done|discriminate].
  - split; [done|]. intros [_ Hs%IH]%andb_prop. done.
Qed.

Lemma trim_start_blank (s : string) : blank (trim_start s) = blank s.
Proof.
  induction s as [|c s IH]; [done|]. cbn.
  destruct (is_whitespace c) eqn:Hc; [done|]. cbn. by rewrite Hc.
Qed.

Lemma trim_empty (s : string) : trim s = "" <-> blank s = true.
Proof. unfold trim. by rewrite trim_end_empty, trim_start_blank. Qed.

Lemma length_slice_last {A} (n : nat) (l : list A) :
  length (slice_last n l) = Nat.min n (length l).
Proof. unfold slice_last. rewrite length_drop. lia. Qed.

Lemma slice_last_snoc {A} (n : nat) (l : list A) (x : A) :
  slice_last (S n) (l ++ [x]) = (slice_last n l ++ [x])%list.
Proof.
  unfold slice_last. rewrite length_app. cbn [length].
  replace (length l + 1 - S n)%nat with (length l - n)%nat by lia.
  rewrite drop_app_le by lia. done.
Qed.

(** The history as [getAIResponse] finds it: it ends with the turn of the
    current message. *)
Lemma history_ends_with_the_message (h : list value) (t : value) :
  exists kept,
    (if (20 <? length (h ++ [t]))%nat then slice_last 10 (h ++ [t]) else (h ++ [t])%list)
    = (kept ++ [t])%list /\
    (length kept <= length h)%nat /\
    (length kept <= 19 \/ length kept = 9)%nat /\
    (forall x, x ∈ kept -> x ∈ h).
Proof.
  rewrite length_app. cbn [length].
  destruct (Nat.ltb_spec 20 (length h + 1)).
  - exists (slice_last 9 h). rewrite slice_last_snoc, length_slice_last.
    repeat split; [lia|lia|].
    intros x Hx. unfold slice_last in Hx. by apply subseteq_drop in Hx.
  - exists h. repeat split; [lia|lia|done].
Qed.

(** X20.  An exchange sends a request exactly when none is in progress and
    the message box holds something other than white space; otherwise the
    state is left as it was. *)
Theorem blank_input_is_not_sent (now_user now_assistant : Z) (st : state) :
  (snd (processUserMessage now_user now_assistant st) = None
   <-> isProcessing st = true \/ blank (messageInput st) = true) /\
  (snd (processUserMessage now_user now_assistant st) = None ->
   fst (fst (processUserMessage now_user now_assistant st)) = st).
Proof.
  unfold Client.processUserMessage.
  destruct (isProcessing st); [by split; [split; [left|]|]|].
  destruct (String.eqb_spec (trim (messageInput st)) "") as [Hblank|Hsome].
  - apply trim_empty in Hblank. by split; [split; [right|]|].
  - destruct (getAIResponse _ _) as [call r].
    destruct (match r with inl _ => _ | inr _ => _ end) as [history' during].
    split; [|done]. split; [done|].
    intros [Hp|Hb]; [done|]. by apply trim_empty in Hb.
Qed.

Lemma processUserMessage_sends (now_user now_assistant : Z) (st : state) :
  isProcessing st = false ->
  trim (messageInput st) <> "" ->
  exists kept,
    let m := trim (messageInput st) in
    let history := (kept ++ [turn "user" (JStr m) now_user])%list in
    (length kept <= length (conversationHistory st))%nat /\
    (length kept <= 19)%nat /\
    (forall x, x ∈ kept -> x ∈ conversationHistory st) /\
    snd (processUserMessage now_user now_assistant st)
      = Some (chat_call_of backendURL m history) /\
    fst (fst (processUserMessage now_user now_assistant st))
      = {| isProcessing := false;
           conversationHistory :=
             (history ++ match snd (getAIResponse m history) with
                         | inr (text, _) => [turn "assistant" text now_assistant]
                         | inl _ => []
                         end)%list;
           messageInput := "" |}.
Proof.
  intros Hidle Hsome. unfold Client.processUserMessage. rewrite Hidle.
  apply String.eqb_neq in Hsome. rewrite Hsome.
  destruct (history_ends_with_the_message (conversationHistory st)
              (turn "user" (JStr (trim (messageInput st))) now_user))
    as (kept & -> & Hlen & Hcap & Hsub).
  exists kept. cbn zeta. split; [done|]. split; [lia|]. split; [done|].
  unfold Client.getAIResponse. cbn [snd].
  destruct (match _ <- backend _ ;; _ with inl e => _ | inr r => _ end)
    as [e|[text provider]]; cbn [fst snd].
  - by rewrite app_nil_r.
  - by destruct text.
Qed.

(** X21.  The history the front end keeps never grows beyond 21 turns: if
    it has at most 21 before an exchange it has at most 21 after it. *)
Theorem history_stays_bounded (now_user now_assistant : Z) (st : state) :
  (length (conversationHistory st) <= 21)%nat ->
  (length (conversationHistory
             (fst (fst (processUserMessage now_user now_assistant st)))) <= 21)%nat.
Proof.
  intros Hlen.
  destruct (isProcessing st) eqn:Hidle.
  { unfold Client.processUserMessage. by rewrite Hidle. }
  destruct (String.eqb_spec (trim (messageInput st)) "") as [Hblank|Hsome].
  { unfold Client.processUserMessage. rewrite Hidle, Hblank. done. }
  destruct (processUserMessage_sends now_user now_assistant st Hidle Hsome)
    as (kept & _ & Hcap & _ & _ & ->).
  cbn [conversationHistory]. rewrite !length_app. cbn [length].
  destruct (snd (getAIResponse _ _)) as [e|[text provider]]; cbn [length]; lia.
Qed.

Lemma sent_call_shape
    (now_user now_assistant : Z) (st : state) (call : chat_call) :
  snd (processUserMessage now_user now_assistant st) = Some call ->
  exists earlier,
    let m := trim (messageInput st) in
    m <> "" /\
    (length earlier <= 5)%nat /\
    call_url call = backendURL ++ "/api/chat" /\
    call_method call = "POST" /\
    call_body call
      = JObj [("message", JStr m);
              ("history", JArr (earlier ++ [turn "user" (JStr m) now_user]))].
Proof.
  intros Hcall.
  destruct (isProcessing st) eqn:Hidle.
  { unfold Client.processUserMessage in Hcall. by rewrite Hidle in Hcall. }
  destruct (String.eqb_spec (trim (messageInput st)) "") as [Hblank|Hsome].
  { unfold Client.processUserMessage in Hcall. by rewrite Hidle, Hblank in Hcall. }
  destruct (processUserMessage_sends now_user now_assistant st Hidle Hsome)
    as (kept & _ & _ & _ & Hsent & _).
  rewrite Hsent in Hcall. injection Hcall as <-.
  exists (slice_last 5 kept). cbn zeta. split; [done|].
  split; [rewrite length_slice_last; lia|].
  unfold chat_call_of. cbn [call_url call_method call_body].
  by rewrite slice_last_snoc.
Qed.

(** X22.  The request an exchange sends carries the trimmed, non-empty text
    of the message box as its message, and as its history at most six
    turns of which the last is that same message, as the user's turn. *)
Theorem request_carries_the_current_message
    (now_user now_assistant : Z) (st : state) (call : chat_call) :
  snd (processUserMessage now_user now_assistant st) = Some call ->
  exists earlier,
    let m := trim (messageInput st) in
    m <> "" /\
    (length earlier <= 5)%nat /\
    call_url call = backendURL ++ "/api/chat" /\
    call_method call = "POST" /\
    call_body call
      = JObj [("message", JStr m);
              ("history", JArr (earlier ++ [turn "user" (JStr m) now_user]))].
Proof.
  intros Hcall.
  destruct (isProcessing st) eqn:Hidle.
  { unfold Client.processUserMessage in Hcall. by rewrite Hidle in Hcall. }
  destruct (String.eqb_spec (trim (messageInput st)) "") as [Hblank|Hsome].
  { unfold Client.processUserMessage in Hcall. by rewrite Hidle, Hblank in Hcall. }
  destruct (processUserMessage_sends now_user now_assistant st Hidle Hsome)
    as (kept & _ & _ & _ & Hsent & _).
  rewrite Hsent in Hcall. injection Hcall as <-.
  exists (slice_last 5 kept). cbn zeta. split; [done|].
  split; [rewrite length_slice_last; lia|].
  unfold chat_call_of. cbn [call_url call_method call_body].
  by rewrite slice_last_snoc.
Qed.

(** X23.  No turn of the history is empty: if every turn has a truthy
    content before an exchange, so has every turn after it (the user's turn
    holds the non-empty message, the assistant's the reply or the fallback
    text). *)
Theorem history_has_no_empty_turn (now_user now_assistant : Z) (st : state) :
  Forall (fun t => truthy (content_of t) = true) (conversationHistory st) ->
  Forall (fun t => truthy (content_of t) = true)
         (conversationHistory
            (fst (fst (processUserMessage now_user now_assistant st)))).
Proof.
  intros Hall.
  destruct (isProcessing st) eqn:Hidle.
  { unfold Client.processUserMessage. by rewrite Hidle. }
  destruct (String.eqb_spec (trim (messageInput st)) "") as [Hblank|Hsome].
  { unfold Client.processUserMessage. rewrite Hidle, Hblank. done. }
  destruct (processUserMessage_sends now_user now_assistant st Hidle Hsome)
    as (kept & _ & _ & Hsub & _ & ->).
  cbn [conversationHistory].
  apply Forall_app_2; [apply Forall_app_2|].
  - apply Forall_forall. intros x Hx%Hsub. by eapply Forall_forall in Hall.
  - constructor; [|constructor]. by apply truthy_string.
  - unfold Client.getAIResponse. cbn [snd].
    destruct (backend _) as [e|response]; [constructor|]. cbn [bind].
    destruct (negb (ok response)).
    + cbn [bind ret].
      destruct (get _ "error") as [e|error]; [constructor|]. cbn [bind].
      destruct (truthy error); cbn [bind ret]; [constructor|].
      destruct (get _ "message"); constructor.
    + destruct (response_json response) as [e|data]; [constructor|]. cbn [bind].
      destruct (get data "response") as [e|text]; [constructor|]. cbn [bind].
      destruct (get data "provider") as [e|provider]; [constructor|]. cbn [bind ret].
      constructor; [|constructor]. unfold content_of, or_else. cbn.
      by destruct (truthy text) eqn:Ht.
Qed.

End ClientFacts.

(** * The front end and the server together *)

Section Together.
Import Client.
Context (NumberToString : number -> string) (StringToNumber : string -> number).
Context (env : environment) (fetch : fetch_request -> result http_response).
Context (Date_now : Z) (Date_iso : string).
Context (backendURL : string) (backend : chat_call -> result http_response).

Local Abbreviation chat := (chat NumberToString StringToNumber env fetch Date_now Date_iso).
Local Abbreviation processUserMessage :=
  (processUserMessage NumberToString backendURL backend).


(** X25.  The server never tells the front end that its message is
    missing: a request of the front end is answered with status 400 only
    when the trimmed message is longer than 10,000 characters. *)
Theorem front_end_request_is_refused_only_for_length
    (now_user now_assistant : Z) (st : state) (call : chat_call)
    (providers : list provider) (requestCounts : gmap client nat) (req : request) :
  snd (processUserMessage now_user now_assistant st) = Some call ->
  body req = call_body call ->
  reply_status (reply (chat providers requestCounts req)) = 400%Z ->
  (10000 < Z.of_nat (String.length (trim (messageInput st))))%Z /\
  reply (chat providers requestCounts req)
    = res_json 400
        (ErrorReply "Message too long" "Please keep messages under 10,000 characters").
Proof.
  intros Hcall Hbody.
  destruct (sent_call_shape NumberToString backendURL backend now_user now_assistant
              st call Hcall) as (earlier & Hm & _ & _ & _ & Hshape).
  cbn zeta in Hm, Hshape. rewrite Hshape in Hbody.
  destruct (Nat.le_gt_cases (count_of requestCounts (clientIP req)) 60) as [Hadm|Hrej];
    [|by rewrite chat_refused by done].
  rewrite chat_admitted by done. cbn [reply].
  unfold Server.process. rewrite Hbody. cbn [get lookup_prop String.eqb Ascii.eqb
    Bool.eqb bind ret is_string negb].
  rewrite orb_false_r. apply truthy_string in Hm. rewrite Hm. cbn [negb].
  rewrite length_gt_string.
  destruct (Z.ltb_spec 10000 (Z.of_nat (String.length (trim (messageInput st)))));
    [intros _; split; [lia|done]|].
  destruct (_ =? _)%nat; [done|].
  destruct (try_providers _ _ _ _ _ _ _ _ _ _) as [es [r|]] eqn:Htry; [|done].
  destruct (try_providers_reply NumberToString StringToNumber env fetch Date_now
              Date_iso (sortedProviders providers) (JStr (trim (messageInput st)))
              (JArr (earlier ++ [turn "user" (JStr (trim (messageInput st))) now_user]))
              req r) as (w & v & ->); [|done].
  by rewrite Htry.
Qed.

End Together.

(** * The further properties at work *)

Section WorkedFurther.
Import Examples.

Local Abbreviation chat_in env fetch :=
  (chat NumberToString StringToNumber env fetch now iso).
Local Abbreviation exchange :=
  (Client.processUserMessage NumberToString backend_url backend_answers now_start now).
Local Abbreviation serve_in unread_body :=
  (serve NumberToString StringToNumber env_two fetch_two now_start now iso unread_body).

(** No key is set. *)
Lemma no_eligible_provider_witness :
  reply (chat_in env_none fetch_two (API_PROVIDERS env_none) ∅ (post_chat hi))
  = res_json 503
      (ErrorReply "No API providers configured"
         "Server configuration error - please contact administrator") /\
  effects (chat_in env_none fetch_two (API_PROVIDERS env_none) ∅ (post_chat hi)) = [].
Proof.
  rewrite (no_eligible_provider_is_a_configuration_error NumberToString StringToNumber
             env_none fetch_two now iso (API_PROVIDERS env_none) ∅ (post_chat hi)
             (JStr "Hi") JUndefined).
  - split; reflexivity.
  - apply visitor_is_let_in.
  - reflexivity.
  - reflexivity.
  - apply Hi_is_valid.
  - intros p Hp. apply list_elem_of_In in Hp. vm_compute in Hp.
    destruct Hp as [<-|[<-|[<-|[<-|[]]]]]; reflexivity.
Defined.

(** A POST for the chat route with no body, under either parser. *)
Lemma request_without_a_body_witness :
  serve_in JUndefined ∅ post_without_body =
    {| reply := res_json 500
         (ErrorReply "Internal server error"
            "An unexpected error occurred. Please try again.");
       effects := [];
       counts_after := <[visitor := 1%nat]> ∅ |} /\
  serve_in (JObj []) ∅ post_without_body =
    {| reply := res_json 400
         (ErrorReply "Message is required" "Please provide a valid message string");
       effects := [];
       counts_after := <[visitor := 1%nat]> ∅ |}.
Proof.
  assert (count_of ∅ (client_of post_without_body) <= 60)%nat as Hadm
    by (vm_compute; lia).
  split.
  - apply (proj1 (request_without_a_body NumberToString StringToNumber env_two
                    fetch_two now_start now iso JUndefined ∅ post_without_body
                    eq_refl eq_refl eq_refl Hadm) eq_refl).
  - apply (proj2 (request_without_a_body NumberToString StringToNumber env_two
                    fetch_two now_start now iso (JObj []) ∅ post_without_body
                    eq_refl eq_refl eq_refl Hadm) eq_refl).
Defined.

(** The chat route is reached in capitals and with a slash at the end, and
    the request is counted; a body that is the JSON text [null] stops at the
    parser, and a second slash at the end finds no route: neither is
    counted. *)
Lemma how_requests_find_the_chat_route :
  attempted (effects (serve_in JUndefined ∅ (post_to "/API/Chat/" (Json hi))))
    = [groq (Some "gsk_0123456789abcdef"); deepseek] /\
  count_of (counts_after (serve_in JUndefined ∅ (post_to "/API/Chat/" (Json hi))))
           visitor = 1%nat /\
  reply (serve_in JUndefined ∅ (post_to "/api/chat" (Json JNull)))
    = res_json 500 (ErrorReply "Server error" "An unexpected error occurred") /\
  count_of (counts_after (serve_in JUndefined ∅ (post_to "/api/chat" (Json JNull))))
           visitor = 0%nat /\
  reply (serve_in JUndefined ∅ (post_to "/api/chat//" (Json hi)))
    = res_json 404 NotFound /\
  count_of (counts_after (serve_in JUndefined ∅ (post_to "/api/chat//" (Json hi))))
           visitor = 0%nat.
Proof. repeat split; vm_compute; reflexivity. Qed.

(** Seventy requests with a slash at the end, within one window. *)
Lemma seventy_requests_in_one_window :
  count_of (counts_after_all NumberToString StringToNumber env_two fetch_two
              now_start now iso JUndefined ∅
              (replicate 70 (Incoming (post_to "/api/chat/" (Json hi)))))
           visitor = 61%nat.
Proof. vm_compute. reflexivity. Qed.

(** [alpha] answers five characters, [beta] answers: [gamma] is not tried. *)
Lemma tries_stop_witness :
  attempted (effects (chat_in env_two fetch_alpha_short three_providers ∅ (post_chat hi)))
  = up_to_first (succeeds NumberToString StringToNumber env_two fetch_alpha_short
                   (JStr "Hi") JUndefined)
      (sortedProviders three_providers) /\
  (length (fetched (effects (chat_in env_two fetch_alpha_short three_providers ∅
                                     (post_chat hi))))
   <= length (attempted (effects (chat_in env_two fetch_alpha_short three_providers ∅
                                          (post_chat hi)))))%nat.
Proof.
  apply (tries_stop_at_the_first_success NumberToString StringToNumber env_two
           fetch_alpha_short now iso three_providers ∅ (post_chat hi)
           (JStr "Hi") JUndefined).
  - apply visitor_is_let_in.
  - reflexivity.
  - reflexivity.
  - apply Hi_is_valid.
Defined.

Lemma success_needs_ok_json_witness :
  exists r response data,
    fst (attempt NumberToString env_two fetch_all_answer (JStr "Hi") JUndefined alpha)
      = [Fetch r] /\
    fetch_all_answer r = inr response /\
    ok response = true /\
    json response = Some data.
Proof.
  apply (success_needs_an_ok_json_response NumberToString StringToNumber env_two
           fetch_all_answer alpha (JStr "Hi") JUndefined).
  reflexivity.
Defined.

Lemma success_reply_witness :
  exists message history w response,
    get (body (post_chat hi)) "message" = inr message /\
    get (body (post_chat hi)) "history" = inr history /\
    valid_message message /\
    w ∈ three_providers /\ has_key w = true /\
    snd (attempt NumberToString env_two fetch_all_answer message history w)
      = inr response /\
    acceptable NumberToString StringToNumber response = true /\
    reply (chat_in env_two fetch_all_answer three_providers ∅ (post_chat hi))
      = chat_reply NumberToString StringToNumber now iso w response (post_chat hi).
Proof.
  apply (success_reply_has_a_source NumberToString StringToNumber env_two
           fetch_all_answer now iso three_providers ∅ (post_chat hi)).
  reflexivity.
Defined.

Lemma unknown_type_witness :
  fst (attempt NumberToString env_two fetch_all_answer (JStr "Hi") JUndefined stranger)
    = [] /\
  succeeds NumberToString StringToNumber env_two fetch_all_answer
    (JStr "Hi") JUndefined stranger = false /\
  snd (attempt NumberToString env_two fetch_all_answer (JStr "Hi") JUndefined stranger)
    = inl (Error "Unsupported provider type: anthropic").
Proof.
  destruct (unknown_type_sends_nothing NumberToString StringToNumber env_two
              fetch_all_answer stranger (JStr "Hi") JUndefined)
    as (Hnone & Hfail & Herror).
  - discriminate.
  - discriminate.
  - split; [exact Hnone|]. split; [exact Hfail|].
    eapply Herror. reflexivity.
Defined.

(** A history that is the number 5. *)
Lemma malformed_history_witness :
  reply (chat_in env_two fetch_all_answer three_providers ∅
                 (post_chat hi_with_number_history))
  = res_json 503
      (UnavailableReply "All AI providers are currently unavailable"
         "Please try again in a moment. If the issue persists, contact support."
         (name <$> sortedProviders three_providers)) /\
  attempted (effects (chat_in env_two fetch_all_answer three_providers ∅
                              (post_chat hi_with_number_history)))
  = sortedProviders three_providers /\
  fetched (effects (chat_in env_two fetch_all_answer three_providers ∅
                            (post_chat hi_with_number_history))) = [].
Proof.
  apply (malformed_history_fails_every_provider NumberToString StringToNumber env_two
           fetch_all_answer now iso three_providers ∅
           (post_chat hi_with_number_history) (JStr "Hi") (JNum (of_Z 5))).
  - apply visitor_is_let_in.
  - reflexivity.
  - reflexivity.
  - apply Hi_is_valid.
  - reflexivity.
  - reflexivity.
  - reflexivity.
  - vm_compute. discriminate.
Defined.


Lemma upstream_requests_of_the_scenario :
  (fun r => (fetch_url r, header "Authorization" (fetch_headers r)))
    <$> fetched (effects (chat_in env_two fetch_two (API_PROVIDERS env_two) ∅
                                  (post_chat hi)))
  = [("https://api.groq.com/openai/v1/chat/completions",
      Some "Bearer gsk_0123456789abcdef");
     ("https://api.deepseek.com/v1/chat/completions",
      Some "Bearer sk-0123456789abcdef")].
Proof. vm_compute. reflexivity. Qed.

(** Status 500 with the body [{"error":{"message":"boom"}}]. *)
Lemma api_error_witness :
  snd (callOpenAICompatible NumberToString env_two fetch_boom
         (groq (Some "gsk_0123456789abcdef")) [])
  = inl (Error "Groq-Ultra-Fast API error: boom").
Proof.
  destruct (api_error_carries_the_upstream_message NumberToString env_two fetch_boom
              (groq (Some "gsk_0123456789abcdef")) []
              boom_response boom_props)
    as [Hnested _].
  - reflexivity.
  - reflexivity.
  - reflexivity.
  - apply (Hnested "boom"); [reflexivity | discriminate].
Defined.

(** Status 304 without a body, and status 502 with an HTML body. *)
Lemma non_json_error_body_witness :
  snd (callOpenAICompatible NumberToString env_two fetch_not_modified
         (groq (Some "gsk_0123456789abcdef")) [])
  = inl (Error "Groq-Ultra-Fast API error: HTTP 304").
Proof.
  destruct (non_json_error_body_falls_back_on_a_second_read NumberToString env_two
              fetch_not_modified (groq (Some "gsk_0123456789abcdef")) []
              not_modified_response) as [Hempty _].
  - reflexivity.
  - reflexivity.
  - reflexivity.
  - apply Hempty. reflexivity.
Defined.

Lemma bad_gateway_is_not_an_api_error :
  snd (callOpenAICompatible NumberToString env_two fetch_bad_gateway
         (groq (Some "gsk_0123456789abcdef")) [])
  = inl (TypeError "Body is unusable: Body has already been read").
Proof. vm_compute. reflexivity. Qed.

(** A body whose [choices] is an object is the one the adapter takes. *)
Lemma object_choices_witness :
  exists response data choices,
    fetch_object_choices (openai_request env_two deepseek []) = inr response /\
    ok response = true /\
    json response = Some data /\
    get data "choices" = inr (JObj choices) /\
    truthy (lookup_prop "0" choices) = true /\
    truthy (lookup_prop "message" choices) = true /\
    get (lookup_prop "message" choices) "content"
      = inr (JStr "An answer of some length.").
Proof.
  apply (chat_completion_returns_only_for_object_choices NumberToString env_two
           fetch_object_choices deepseek [] (JStr "An answer of some length.")).
  reflexivity.
Defined.

Lemma generic_text_witness :
  exists response props,
    fetch_backup (huggingface_request huggingface (JStr "Hi")) = inr response /\
    ok response = true /\
    json response = Some (JObj props) /\
    JStr backup_text = lookup_prop "generated_text" props /\
    truthy (JStr backup_text) = true.
Proof.
  apply (generic_text_returns_only_a_bare_object_field NumberToString fetch_backup
           huggingface (JStr "Hi") (JStr backup_text)).
  reflexivity.
Defined.

(** The key of the example file, left as it is. *)
Lemma placeholder_key_witness :
  validateAPIKeys (API_PROVIDERS env_placeholder) = false /\
  name (groq (Some "your_groq_api_key_here")) ∈ missingKeys (API_PROVIDERS env_placeholder) /\
  groq (Some "your_groq_api_key_here") ∈ sortedProviders (API_PROVIDERS env_placeholder).
Proof.
  apply (placeholder_key_is_eligible (API_PROVIDERS env_placeholder)
           (groq (Some "your_groq_api_key_here"))).
  - left.
  - reflexivity.
Defined.

Lemma short_keys_witness :
  validateAPIKeys (API_PROVIDERS env_short) = true /\
  sortedProviders (API_PROVIDERS env_short) = [].
Proof.
  apply (short_keys_pass_the_check_and_serve_nothing (API_PROVIDERS env_short)).
  intros p Hp. apply list_elem_of_In in Hp. vm_compute in Hp.
  destruct Hp as [<-|[<-|[<-|[<-|[]]]]]; eexists;
    (split; [reflexivity|]; split; [discriminate | simpl; lia]).
Defined.

(** A session of 21 turns: the next exchange cuts it to 10 and adds one. *)
Lemma history_stays_bounded_witness :
  (length (Client.conversationHistory (fst (fst (exchange long_session)))) <= 21)%nat.
Proof.
  apply (history_stays_bounded NumberToString backend_url backend_answers
           now_start now long_session).
  simpl. lia.
Defined.

Lemma long_session_is_cut :
  length (Client.conversationHistory (fst (fst (exchange long_session)))) = 11%nat.
Proof. vm_compute. reflexivity. Qed.

(** The message ["  Hi  "] typed into an idle page. *)
Lemma request_carries_the_current_message_witness :
  exists earlier,
    Client.trim (Client.messageInput typed) <> "" /\
    (length earlier <= 5)%nat /\
    Client.call_url typed_call = backend_url ++ "/api/chat" /\
    Client.call_method typed_call = "POST" /\
    Client.call_body typed_call
      = JObj [("message", JStr (Client.trim (Client.messageInput typed)));
              ("history",
               JArr (earlier ++ [Client.turn "user"
                                   (JStr (Client.trim (Client.messageInput typed)))
                                   now_start]))].
Proof.
  apply (request_carries_the_current_message NumberToString backend_url
           backend_answers now_start now typed typed_call).
  reflexivity.
Defined.

Lemma typed_exchange :
  exchange typed
  = ({| Client.isProcessing := false;
        Client.conversationHistory :=
          [Client.turn "user" (JStr "Hi") now_start;
           Client.turn "assistant" (JStr backup_text) now];
        Client.messageInput := "" |},
     [Client.ResetInputHeight;
      Client.AddMessageToChat "Hi" "user";
      Client.ShowTypingIndicator;
      Client.UpdateSystemStatus "Processing..." "Generating AI response";
      Client.HideTypingIndicator;
      Client.AddMessageToChat backup_text "ai";
      Client.SpeakResponse backup_text;
      Client.UpdateSystemStatus "Response complete" "via HuggingFace-Backup";
      Client.FocusInputLater],
     Some typed_call).
Proof. vm_compute. reflexivity. Qed.

Lemma history_has_no_empty_turn_witness :
  Forall (fun t => truthy (Client.content_of t) = true)
         (Client.conversationHistory (fst (fst (exchange long_session)))).
Proof.
  apply (history_has_no_empty_turn NumberToString backend_url backend_answers
           now_start now long_session).
  apply Forall_replicate. reflexivity.
Defined.


Lemma typed_message_upstream :
  (fun r => get_opt (fetch_body r) "messages")
    <$> fetched (effects (chat_in env_two fetch_two (API_PROVIDERS env_two) ∅
                                  (post_chat (Client.call_body typed_call))))
  = replicate 2
      (JArr [role_content "system" (JStr systemPrompt);
             Client.turn "user" (JStr "Hi") now_start;
             role_content "user" (JStr "Hi")]).
Proof. vm_compute. reflexivity. Qed.

(** A message of 10,001 characters. *)
Lemma front_end_request_refused_witness :
  (10000 < Z.of_nat (String.length (Client.trim (Client.messageInput typed_long))))%Z /\
  reply (chat_in env_two fetch_two (API_PROVIDERS env_two) ∅
                 (post_chat (Client.call_body long_call)))
  = res_json 400
      (ErrorReply "Message too long" "Please keep messages under 10,000 characters").
Proof.
  apply (front_end_request_is_refused_only_for_length NumberToString StringToNumber
           env_two fetch_two now iso backend_url backend_answers now_start now
           typed_long long_call (API_PROVIDERS env_two) ∅
           (post_chat (Client.call_body long_call))).
  - vm_compute. reflexivity.
  - reflexivity.
  - vm_compute. reflexivity.
Defined.

End WorkedFurther.
